(** * The optimizing compiler's graph builder (art/compiler/optimizing/builder.cc)

    A shallow embedding of [HGraphBuilder]: the skip policy
    ([SkipCompilation]), the bytecode pipeline ([BuildGraph]) and the
    intrinsic pipeline ([BuildIntrinsicGraph]).

    The builder mutates the graph it was handed, a statistics object and the
    three stage objects it creates on its stack.  These live in a [Heap]; the
    builder's code is written in a small state monad over it.  The monad also
    keeps a log of the calls the builder makes, in call order, so that the
    ordering of the stages can be stated.

    The stages themselves (block_builder.cc, nodes.cc, instruction_builder.cc,
    ssa_builder.cc) are not part of the sources at hand.  [BuildGraph] and
    [BuildIntrinsicGraph] are therefore written over an interface
    ([Collaborators]); further down the file gives one implementation of that
    interface, modelled from the specification. *)

From Stdlib Require Import ZArith List String Ascii Bool Arith Lia.
Import ListNotations.

Local Open Scope Z_scope.

(* ===================================================================== *)
(** * Data model *)
(* ===================================================================== *)

(** Modelled from the spec: nodes.h, which declares [GraphAnalysisResult], is
    missing.  builder.cc names [kAnalysisInvalidBytecode], [kAnalysisSkipped]
    and [kAnalysisSuccess]; the spec adds "a structural-failure variant
    identifying which stage failed". *)
Inductive Stage : Type :=
| BlockPartitioner
| DominatorAnalyzer
| InstructionMaterializer
| SsaFinalizer.

Inductive GraphAnalysisResult : Type :=
| kAnalysisSkipped
| kAnalysisInvalidBytecode
| kAnalysisStructuralFailure (stage : Stage)
| kAnalysisSuccess.

Definition Stage_eqb (a b : Stage) : bool :=
  match a, b with
  | BlockPartitioner, BlockPartitioner
  | DominatorAnalyzer, DominatorAnalyzer
  | InstructionMaterializer, InstructionMaterializer
  | SsaFinalizer, SsaFinalizer => true
  | _, _ => false
  end.

(** [operator==] on the enum. *)
Definition GraphAnalysisResult_eqb (a b : GraphAnalysisResult) : bool :=
  match a, b with
  | kAnalysisSkipped, kAnalysisSkipped => true
  | kAnalysisInvalidBytecode, kAnalysisInvalidBytecode => true
  | kAnalysisStructuralFailure s, kAnalysisStructuralFailure t => Stage_eqb s t
  | kAnalysisSuccess, kAnalysisSuccess => true
  | _, _ => false
  end.

(** Modelled from the spec: data_type.h is missing.  The spec's result types
    are "void, integer-like, float-like, reference, or not yet typed". *)
Inductive ResultType : Type :=
| kVoid
| kIntegerLike
| kFloatLike
| kReference
| kNotYetTyped.

(** Modelled from the spec: the opcode tag of a graph instruction.  Only the
    distinctions the spec draws are kept: the control-flow instructions, the
    instructions whose inputs force a type, and the ones the intrinsic skeleton
    is filled with. *)
Inductive Opcode : Type :=
| kParameterValue
| kConstant
| kIntegerOnly
| kFloatArithmetic
| kArrayAccess
| kShift
| kInvoke
| kGoto
| kBranch
| kSwitch
| kReturn
| kReturnVoid
| kThrow
| kTryBoundary
| kExit
| kOtherOpcode (tag : nat).

(** Modelled from the spec: a value reference is "either a concrete
    instruction" (named by its id, with its declared result type) or, until
    the SSA finalizer ties it off, the provisional value a vreg has on entry to
    a block. *)
Inductive ValueRef : Type :=
| Defined (id : nat) (declared : ResultType)
| Provisional (block : nat) (vreg : nat).

Record HInstruction : Type := {
  id_ : nat;
  opcode_ : Opcode;
  inputs_ : list ValueRef;
  type_ : ResultType;
}.

(** A phi: "one input per predecessor edge, in predecessor order". *)
Record HPhi : Type := {
  reg_number_ : nat;
  phi_inputs_ : list ValueRef;
  phi_type_ : ResultType;
}.

Record HBasicBlock : Type := {
  block_id_ : nat;
  instructions_ : list HInstruction;
  phis_ : list HPhi;
  predecessors_ : list nat;
  successors_ : list nat;
  dominator_ : option nat;
  dominated_blocks_ : list nat;
  try_region_ : option nat;
  loop_header_ : bool;
}.

(** The graph "owns an ordered collection of basic blocks, the method's
    declared vreg count, the count of vregs that are incoming arguments, and a
    pointer to the entry block". *)
Record HGraph : Type := {
  blocks_ : list HBasicBlock;
  entry_block_ : option nat;
  number_of_vregs_ : Z;
  number_of_in_vregs_ : Z;
}.

(** The width of a vreg count: a code item declares its registers and its
    incoming registers as [uint16_t]. *)
Definition vreg_count_bits : Z := 16.

(** The conversion of an integer to [uint16_t]: the value modulo [2 ^ 16]. *)
Definition to_uint16 (x : Z) : Z := x mod 2 ^ vreg_count_bits.

(** Modelled from the spec: nodes.h, which declares [HGraph] and its setters,
    is missing.  The graph holds "the method's declared vreg count" and "the
    count of vregs that are incoming arguments"; both are counts of the width
    a code item declares them in, and [SetNumberOfVRegs] takes its argument at
    that width, [uint16_t]: a wider value given at the call is converted, that
    is, reduced modulo [2 ^ 16], before it is stored. *)
Definition SetNumberOfVRegs (n : Z) (g : HGraph) : HGraph :=
  {| blocks_ := blocks_ g;
     entry_block_ := entry_block_ g;
     number_of_vregs_ := to_uint16 n;
     number_of_in_vregs_ := number_of_in_vregs_ g |}.

(** Modelled from the spec: as [SetNumberOfVRegs], for "the count of vregs
    that are incoming arguments". *)
Definition SetNumberOfInVRegs (n : Z) (g : HGraph) : HGraph :=
  {| blocks_ := blocks_ g;
     entry_block_ := entry_block_ g;
     number_of_vregs_ := number_of_vregs_ g;
     number_of_in_vregs_ := to_uint16 n |}.

(** ** What the builder is constructed with *)

(** The code item as the accessor exposes it.  [HasCodeItem] is false for the
    default-constructed accessor the intrinsic path uses. *)
Record CodeItemDebugInfoAccessor : Type := {
  HasCodeItem : bool;
  registers_size_ : Z;
  ins_size_ : Z;
  InsnsSizeInCodeUnits : Z;     (* uint32_t *)
}.

(** [uint16_t RegistersSize() const]: the declared register count, a 16-bit
    value. *)
Definition RegistersSize (accessor : CodeItemDebugInfoAccessor) : Z :=
  to_uint16 (registers_size_ accessor).

(** [uint16_t InsSize() const]: the declared count of incoming registers, a
    16-bit value. *)
Definition InsSize (accessor : CodeItemDebugInfoAccessor) : Z :=
  to_uint16 (ins_size_ accessor).

(** Modelled from the spec: compiler_filter.h is missing; builder.cc names
    [kEverything] only, the other filters are kept apart by a tag. *)
Inductive CompilerFilter : Type :=
| kEverything
| kOtherFilter (tag : nat).

Definition CompilerFilter_eqb (a b : CompilerFilter) : bool :=
  match a, b with
  | kEverything, kEverything => true
  | kOtherFilter m, kOtherFilter n => Nat.eqb m n
  | _, _ => false
  end.

Record CompilerOptions : Type := {
  GetCompilerFilter : CompilerFilter;
  huge_method_threshold_ : Z;   (* size_t *)
}.

(** Modelled from the spec: [CompilerOptions::IsHugeMethod] is declared in
    driver/compiler_options.h, which is missing.  A method is huge when it
    "exceeds a configured size/complexity threshold"; "exactly at the
    configured huge-method threshold is compiled; one unit above is Skipped". *)
Definition IsHugeMethod (o : CompilerOptions) (num_dalvik_instructions : Z) : bool :=
  huge_method_threshold_ o <? num_dalvik_instructions.

Record CodeGenerator : Type := {
  GetCompilerOptions : CompilerOptions;
}.

Record DexCompilationUnit : Type := {
  GetDexMethodIndex : Z;
  IsStatic : bool;
  (** [dex_file_->GetMethodShorty(dex_file_->GetMethodId(method_idx))] *)
  GetShorty : string;
}.

(** The fields of [HGraphBuilder] that no member function writes.  [None] is
    the null pointer. *)
Record HGraphBuilder : Type := {
  code_item_accessor_ : CodeItemDebugInfoAccessor;
  dex_compilation_unit_ : DexCompilationUnit;
  code_generator_ : option CodeGenerator;
  return_type_ : ResultType;
}.

(** ** Statistics *)

Inductive MethodCompilationStat : Type :=
| kNotCompiledHugeMethod
| kOtherStat (tag : nat).

Definition MethodCompilationStat_eqb (a b : MethodCompilationStat) : bool :=
  match a, b with
  | kNotCompiledHugeMethod, kNotCompiledHugeMethod => true
  | kOtherStat m, kOtherStat n => Nat.eqb m n
  | _, _ => false
  end.

(** One counter per statistic. *)
Definition OptimizingCompilerStats : Type := MethodCompilationStat -> nat.

Definition RecordStat (stat : MethodCompilationStat) (s : OptimizingCompilerStats)
  : OptimizingCompilerStats :=
  fun q => if MethodCompilationStat_eqb q stat then S (s q) else s q.

(** [MaybeRecordStat] does nothing on a null statistics pointer. *)
Definition MaybeRecordStat (s : option OptimizingCompilerStats)
    (stat : MethodCompilationStat) : option OptimizingCompilerStats :=
  match s with
  | Some c => Some (RecordStat stat c)
  | None => None
  end.

(** An [ArtMethod*]: an opaque handle into the runtime's object graph. *)
Inductive ArtMethod : Type :=
| ArtMethodHandle (h : nat).

(* ===================================================================== *)
(** * The builder's state and its monad *)
(* ===================================================================== *)

(** What a run of the builder can write: the graph behind [graph_], the
    statistics behind [compilation_stats_] (a null pointer is [None]) and the
    stage objects ([block_builder], [ssa_builder], [instruction_builder])
    allocated on the builder's stack. *)
Record Heap (StageObjects : Type) : Type := {
  graph_ : HGraph;
  compilation_stats_ : option OptimizingCompilerStats;
  stage_objects_ : StageObjects;
}.
Arguments graph_ {StageObjects} _.
Arguments compilation_stats_ {StageObjects} _.
Arguments stage_objects_ {StageObjects} _.

(** The calls a builder makes, with what they were given or what they
    returned.  The log is ghost state: no code reads it. *)
Inductive Call : Type :=
| CallSetNumberOfVRegs (n : Z)
| CallSetNumberOfInVRegs (n : Z)
| CallBlockBuilderBuild (ok : bool)
| CallSkipCompilation (skip : bool)
| CallBuildDominatorTree (result : GraphAnalysisResult)
| CallInstructionBuilderBuild (ok : bool)
| CallBuildSsa (result : GraphAnalysisResult)
| CallBlockBuilderBuildIntrinsic
| CallInstructionBuilderBuildIntrinsic (method : ArtMethod).

(** The [DCHECK]s of builder.cc.  A debug build aborts at a failed [DCHECK], a
    release build does not evaluate it.  The model is of the release build: a
    run goes on after a check that does not hold.  The checks that did not
    hold are kept in a ghost record, which no code reads; a run of the debug
    build is the run of the model as long as this record is empty, and ends
    at the first check that would enter it. *)
Inductive DCheck : Type :=
| DCheck_HasCodeItem
| DCheck_not_HasCodeItem
| DCheck_blocks_empty
| DCheck_bdt_result_is_success
| DCheck_build_ssa_result_is_success.

Record State (StageObjects : Type) : Type := {
  heap_ : Heap StageObjects;
  calls_ : list Call;
  failed_dchecks_ : list DCheck;
}.
Arguments heap_ {StageObjects} _.
Arguments calls_ {StageObjects} _.
Arguments failed_dchecks_ {StageObjects} _.

Definition M (StageObjects A : Type) : Type :=
  State StageObjects -> A * State StageObjects.

Section Monad.
Context {L : Type}.

Definition ret {A} (a : A) : M L A := fun s => (a, s).

Definition bind {A B} (m : M L A) (k : A -> M L B) : M L B :=
  fun s => let (a, s') := m s in k a s'.

(** Run a collaborator on the heap and log the call. *)
Definition call {R} (log : R -> Call) (f : Heap L -> R * Heap L) : M L R :=
  fun s =>
    let (r, h) := f (heap_ s) in
    (r, {| heap_ := h;
           calls_ := calls_ s ++ [log r];
           failed_dchecks_ := failed_dchecks_ s |}).

(** Read the heap. *)
Definition read {A} (f : Heap L -> A) : M L A := fun s => (f (heap_ s), s).

Definition DCHECK (what : DCheck) (cond : bool) : M L unit :=
  fun s =>
    (tt, {| heap_ := heap_ s;
            calls_ := calls_ s;
            failed_dchecks_ := failed_dchecks_ s ++ (if cond then [] else [what]) |}).

(** A setter of the graph, as a collaborator that returns nothing. *)
Definition on_graph (f : HGraph -> HGraph) (h : Heap L) : unit * Heap L :=
  (tt, {| graph_ := f (graph_ h);
          compilation_stats_ := compilation_stats_ h;
          stage_objects_ := stage_objects_ h |}).

Definition on_stats (f : option OptimizingCompilerStats -> option OptimizingCompilerStats)
    : M L unit :=
  fun s =>
    (tt, {| heap_ := {| graph_ := graph_ (heap_ s);
                        compilation_stats_ := f (compilation_stats_ (heap_ s));
                        stage_objects_ := stage_objects_ (heap_ s) |};
            calls_ := calls_ s;
            failed_dchecks_ := failed_dchecks_ s |}).
End Monad.

Declare Scope builder_scope.
Delimit Scope builder_scope with builder.
Notation "x <- m ;; k" := (bind m (fun x => k))
  (at level 61, m at next level, right associativity) : builder_scope.
Notation "m ;; k" := (bind m (fun _ => k))
  (at level 61, right associativity) : builder_scope.

(** The stages [HGraphBuilder] drives.  Each works on the heap; [Build] and
    [BuildSsa] and the like return what the C++ functions return. *)
Record Collaborators : Type := {
  StageObjects : Type;
  (** The state of [block_builder], [ssa_builder] and [instruction_builder]
      when their constructors return. *)
  new_stage_objects : HGraphBuilder -> StageObjects;
  (** [HBasicBlockBuilder::Build] *)
  block_builder_Build : HGraphBuilder -> Heap StageObjects -> bool * Heap StageObjects;
  (** [HBasicBlockBuilder::BuildIntrinsic] *)
  block_builder_BuildIntrinsic : HGraphBuilder -> Heap StageObjects -> unit * Heap StageObjects;
  (** [HGraph::BuildDominatorTree] *)
  BuildDominatorTree : Heap StageObjects -> GraphAnalysisResult * Heap StageObjects;
  (** [HInstructionBuilder::Build] *)
  instruction_builder_Build : HGraphBuilder -> Heap StageObjects -> bool * Heap StageObjects;
  (** [HInstructionBuilder::BuildIntrinsic] *)
  instruction_builder_BuildIntrinsic :
    HGraphBuilder -> ArtMethod -> Heap StageObjects -> unit * Heap StageObjects;
  (** [SsaBuilder::BuildSsa] *)
  BuildSsa : HGraphBuilder -> Heap StageObjects -> GraphAnalysisResult * Heap StageObjects;
}.

(* ===================================================================== *)
(** * builder.cc *)
(* ===================================================================== *)

(** ** C strings and [size_t]

    A C string is represented by the characters before its terminating NUL. *)

Definition strlen (s : string) : Z := Z.of_nat (String.length s).

(** [shorty + 1].  A shorty always starts with the return type; for the empty
    string the C++ pointer would pass the terminator. *)
Definition shorty_plus_1 (shorty : string) : string :=
  match shorty with
  | String _ rest => rest
  | EmptyString => EmptyString
  end.

Fixpoint count_chars (s : list ascii) (value : ascii) : Z :=
  match s with
  | [] => 0
  | c :: rest => (if Ascii.eqb c value then 1 else 0) + count_chars rest value
  end.

(** [std::count(first, first + n, value)] *)
Definition std_count (first : string) (n : Z) (value : ascii) : Z :=
  count_chars (firstn (Z.to_nat n) (list_ascii_of_string first)) value.

(** The width of [size_t] on the 64-bit hosts the compiler is built for. *)
Definition size_t_bits : Z := 64.

(** [size_t] arithmetic wraps. *)
Definition to_size_t (x : Z) : Z := x mod 2 ^ size_t_bits.

Section Builder.
Variable C : Collaborators.
Variable this : HGraphBuilder.

Local Open Scope builder_scope.

(** [bool HGraphBuilder::SkipCompilation()].  The state of the model is the
    graph, the statistics and the stage objects; the verbose log is not part
    of it, so the [VLOG] statement of lines 80 to 82, which writes a line to
    that log when verbose compiler logging is on and reads the method's name
    from the dex file to do so, has no counterpart here. *)
Definition SkipCompilation : M (StageObjects C) bool :=
  match code_generator_ this with
  | None =>
      (* Note that the codegen is null when unit testing. *)
      ret false
  | Some code_generator =>
      let compiler_options := GetCompilerOptions code_generator in
      let compiler_filter := GetCompilerFilter compiler_options in
      if CompilerFilter_eqb compiler_filter kEverything then ret false
      else
        let code_units := InsnsSizeInCodeUnits (code_item_accessor_ this) in
        if IsHugeMethod compiler_options code_units then
          on_stats (fun stats => MaybeRecordStat stats kNotCompiledHugeMethod) ;;
          ret true
        else ret false
  end.

(** [SkipCompilation] as [BuildGraph] calls it: the call is logged. *)
Definition call_SkipCompilation : M (StageObjects C) bool :=
  fun s =>
    let (skip, s') := SkipCompilation s in
    (skip, {| heap_ := heap_ s';
              calls_ := calls_ s' ++ [CallSkipCompilation skip];
              failed_dchecks_ := failed_dchecks_ s' |}).

Definition blocks_empty (h : Heap (StageObjects C)) : bool :=
  match blocks_ (graph_ h) with
  | [] => true
  | _ :: _ => false
  end.

(** [GraphAnalysisResult HGraphBuilder::BuildGraph()] *)
Definition BuildGraph : M (StageObjects C) GraphAnalysisResult :=
  DCHECK DCheck_HasCodeItem (HasCodeItem (code_item_accessor_ this)) ;;
  empty <- read blocks_empty ;;
  DCHECK DCheck_blocks_empty empty ;;

  call CallSetNumberOfVRegs
    (fun h => let n := RegistersSize (code_item_accessor_ this) in
              (n, snd (on_graph (SetNumberOfVRegs n) h))) ;;
  call CallSetNumberOfInVRegs
    (fun h => let n := InsSize (code_item_accessor_ this) in
              (n, snd (on_graph (SetNumberOfInVRegs n) h))) ;;

  (* 1) Create basic blocks and link them together. *)
  ok <- call CallBlockBuilderBuild (block_builder_Build C this) ;;
  if negb ok then ret kAnalysisInvalidBytecode
  else
  (* 2) Decide whether to skip compiling this method. *)
  skip <- call_SkipCompilation ;;
  if skip then ret kAnalysisSkipped
  else
  (* 3) Build the dominator tree and fill in loop and try/catch metadata. *)
  result <- call CallBuildDominatorTree (BuildDominatorTree C) ;;
  if negb (GraphAnalysisResult_eqb result kAnalysisSuccess) then ret result
  else
  (* 4) Populate basic blocks with instructions. *)
  ok <- call CallInstructionBuilderBuild (instruction_builder_Build C this) ;;
  if negb ok then ret kAnalysisInvalidBytecode
  else
  (* 5) Type the graph and eliminate dead/redundant phis. *)
  call CallBuildSsa (BuildSsa C this).

(** Lines 148 to 153 of [BuildIntrinsicGraph]: the number of arguments and
    associated vregs. *)
Definition num_arg_vregs : Z :=
  let shorty := GetShorty (dex_compilation_unit_ this) in
  let num_args := strlen (shorty_plus_1 shorty) in
  let num_wide_args :=
    to_size_t (std_count (shorty_plus_1 shorty) num_args "J"%char +
               std_count (shorty_plus_1 shorty) num_args "D"%char) in
  to_size_t (to_size_t (num_args + num_wide_args) +
             (if IsStatic (dex_compilation_unit_ this) then 0 else 1)).

(** [void HGraphBuilder::BuildIntrinsicGraph(ArtMethod* method)] *)
Definition BuildIntrinsicGraph (method : ArtMethod) : M (StageObjects C) unit :=
  DCHECK DCheck_not_HasCodeItem (negb (HasCodeItem (code_item_accessor_ this))) ;;
  empty <- read blocks_empty ;;
  DCHECK DCheck_blocks_empty empty ;;

  (* Determine the number of arguments and associated vregs. *)
  let num_arg_vregs := num_arg_vregs in

  (* For simplicity, reserve 2 vregs (the maximum) for return value
     regardless of the return type. *)
  let return_vregs := 2 in
  (* The setters take [uint16_t]: the [size_t] values are converted at the
     calls, and the log holds what the setters are given. *)
  call CallSetNumberOfVRegs
    (fun h => let n := to_uint16 (to_size_t (return_vregs + num_arg_vregs)) in
              (n, snd (on_graph (SetNumberOfVRegs n) h))) ;;
  call CallSetNumberOfInVRegs
    (fun h => let n := to_uint16 num_arg_vregs in
              (n, snd (on_graph (SetNumberOfInVRegs n) h))) ;;

  (* 1) Create basic blocks for the intrinsic and link them together. *)
  call (fun _ => CallBlockBuilderBuildIntrinsic) (block_builder_BuildIntrinsic C this) ;;

  (* 2) Build the trivial dominator tree. *)
  bdt_result <- call CallBuildDominatorTree (BuildDominatorTree C) ;;
  DCHECK DCheck_bdt_result_is_success
    (GraphAnalysisResult_eqb bdt_result kAnalysisSuccess) ;;

  (* 3) Populate basic blocks with instructions for the intrinsic. *)
  call (fun _ => CallInstructionBuilderBuildIntrinsic method)
    (instruction_builder_BuildIntrinsic C this method) ;;

  (* 4) Type the graph (no dead/redundant phis to eliminate). *)
  build_ssa_result <- call CallBuildSsa (BuildSsa C this) ;;
  DCHECK DCheck_build_ssa_result_is_success
    (GraphAnalysisResult_eqb build_ssa_result kAnalysisSuccess).

(** The state a member function of the builder starts in: the graph and the
    statistics object the builder was constructed with, nothing logged. *)
Definition initial_state (graph : HGraph) (stats : option OptimizingCompilerStats)
    : State (StageObjects C) :=
  {| heap_ := {| graph_ := graph;
                 compilation_stats_ := stats;
                 stage_objects_ := new_stage_objects C this |};
     calls_ := [];
     failed_dchecks_ := [] |}.
End Builder.

Arguments SkipCompilation C this _ : assert.
Arguments BuildGraph C this _ : assert.
Arguments BuildIntrinsicGraph C this method _ : assert.

(* ===================================================================== *)
(** * The shape of a run *)
(* ===================================================================== *)

Section RunShapes.
Variable C : Collaborators.
Variable this : HGraphBuilder.

(** What [SkipCompilation] returns: it reads the builder's fields only. *)
Definition skip_decision : bool :=
  match code_generator_ this with
  | None => false
  | Some code_generator =>
      if CompilerFilter_eqb (GetCompilerFilter (GetCompilerOptions code_generator)) kEverything
      then false
      else IsHugeMethod (GetCompilerOptions code_generator)
                        (InsnsSizeInCodeUnits (code_item_accessor_ this))
  end.

(** What [SkipCompilation] writes: one statistic, when it skips. *)
Definition skip_effect (h : Heap (StageObjects C)) : Heap (StageObjects C) :=
  if skip_decision
  then {| graph_ := graph_ h;
          compilation_stats_ := MaybeRecordStat (compilation_stats_ h) kNotCompiledHugeMethod;
          stage_objects_ := stage_objects_ h |}
  else h.

(** The heap once lines 94 and 95 have run. *)
Definition after_setters (h : Heap (StageObjects C)) : Heap (StageObjects C) :=
  snd (on_graph (SetNumberOfInVRegs (InsSize (code_item_accessor_ this)))
         (snd (on_graph (SetNumberOfVRegs (RegistersSize (code_item_accessor_ this))) h))).

Definition setter_calls : list Call :=
  [CallSetNumberOfVRegs (RegistersSize (code_item_accessor_ this));
   CallSetNumberOfInVRegs (InsSize (code_item_accessor_ this))].

(** The [DCHECK]s at the head of [BuildGraph] that fail on a graph. *)
Definition BuildGraph_precondition_failures (graph : HGraph) : list DCheck :=
  (if HasCodeItem (code_item_accessor_ this) then [] else [DCheck_HasCodeItem]) ++
  (match blocks_ graph with [] => [] | _ :: _ => [DCheck_blocks_empty] end).

(** The five ways through [BuildGraph], one per [return]. *)
Inductive BuildGraph_path (h : Heap (StageObjects C))
  : GraphAnalysisResult -> Heap (StageObjects C) -> list Call -> Prop :=
| path_blocks_failed h1 :
    block_builder_Build C this (after_setters h) = (false, h1) ->
    BuildGraph_path h kAnalysisInvalidBytecode h1
      (setter_calls ++ [CallBlockBuilderBuild false])
| path_skipped h1 :
    block_builder_Build C this (after_setters h) = (true, h1) ->
    skip_decision = true ->
    BuildGraph_path h kAnalysisSkipped (skip_effect h1)
      (setter_calls ++ [CallBlockBuilderBuild true; CallSkipCompilation true])
| path_dominators_failed h1 result h3 :
    block_builder_Build C this (after_setters h) = (true, h1) ->
    skip_decision = false ->
    BuildDominatorTree C (skip_effect h1) = (result, h3) ->
    result <> kAnalysisSuccess ->
    BuildGraph_path h result h3
      (setter_calls ++ [CallBlockBuilderBuild true; CallSkipCompilation false;
                        CallBuildDominatorTree result])
| path_instructions_failed h1 h3 h4 :
    block_builder_Build C this (after_setters h) = (true, h1) ->
    skip_decision = false ->
    BuildDominatorTree C (skip_effect h1) = (kAnalysisSuccess, h3) ->
    instruction_builder_Build C this h3 = (false, h4) ->
    BuildGraph_path h kAnalysisInvalidBytecode h4
      (setter_calls ++ [CallBlockBuilderBuild true; CallSkipCompilation false;
                        CallBuildDominatorTree kAnalysisSuccess;
                        CallInstructionBuilderBuild false])
| path_ssa h1 h3 h4 result h5 :
    block_builder_Build C this (after_setters h) = (true, h1) ->
    skip_decision = false ->
    BuildDominatorTree C (skip_effect h1) = (kAnalysisSuccess, h3) ->
    instruction_builder_Build C this h3 = (true, h4) ->
    BuildSsa C this h4 = (result, h5) ->
    BuildGraph_path h result h5
      (setter_calls ++ [CallBlockBuilderBuild true; CallSkipCompilation false;
                        CallBuildDominatorTree kAnalysisSuccess;
                        CallInstructionBuilderBuild true;
                        CallBuildSsa result]).

(** The heap once lines 157 and 158 have run. *)
Definition after_intrinsic_setters (h : Heap (StageObjects C)) : Heap (StageObjects C) :=
  snd (on_graph (SetNumberOfInVRegs (to_uint16 (num_arg_vregs this)))
         (snd (on_graph
                 (SetNumberOfVRegs (to_uint16 (to_size_t (2 + num_arg_vregs this)))) h))).

(** The [DCHECK]s at the head of [BuildIntrinsicGraph] that fail on a graph. *)
Definition BuildIntrinsicGraph_precondition_failures (graph : HGraph) : list DCheck :=
  (if HasCodeItem (code_item_accessor_ this) then [DCheck_not_HasCodeItem] else []) ++
  (match blocks_ graph with [] => [] | _ :: _ => [DCheck_blocks_empty] end).
End RunShapes.

Definition state_of_heap {L} (h : Heap L) : State L :=
  {| heap_ := h; calls_ := []; failed_dchecks_ := [] |}.

(** The three stages that come after the skip decision. *)
Definition is_later_stage (c : Call) : bool :=
  match c with
  | CallBuildDominatorTree _ | CallInstructionBuilderBuild _ | CallBuildSsa _ => true
  | _ => false
  end.

Definition is_stage (c : Call) : bool :=
  match c with
  | CallSetNumberOfVRegs _ | CallSetNumberOfInVRegs _ => false
  | _ => true
  end.

(** A stage that leaves the two vreg counts of the graph alone. *)
Definition keeps_vreg_counts {L R} (stage : Heap L -> R * Heap L) : Prop :=
  forall h,
    number_of_vregs_ (graph_ (snd (stage h))) = number_of_vregs_ (graph_ h) /\
    number_of_in_vregs_ (graph_ (snd (stage h))) = number_of_in_vregs_ (graph_ h).

(* ===================================================================== *)
(** * The stages, modelled from the specification *)
(* ===================================================================== *)

(** The per-block "current vreg value" arrays the instruction materializer
    threads and the SSA finalizer consumes: for each block id, the value of
    every vreg when the block is left. *)
Record SpecStageObjects : Type := {
  locals_for_ : list (list ValueRef);
}.

Definition mem (x : nat) (l : list nat) : bool := existsb (Nat.eqb x) l.

Definition find_block (g : HGraph) (id : nat) : option HBasicBlock :=
  find (fun b => Nat.eqb (block_id_ b) id) (blocks_ g).

Definition with_graph (g : HGraph) (h : Heap SpecStageObjects) : Heap SpecStageObjects :=
  {| graph_ := g;
     compilation_stats_ := compilation_stats_ h;
     stage_objects_ := stage_objects_ h |}.

Definition with_blocks (bs : list HBasicBlock) (g : HGraph) : HGraph :=
  {| blocks_ := bs;
     entry_block_ := entry_block_ g;
     number_of_vregs_ := number_of_vregs_ g;
     number_of_in_vregs_ := number_of_in_vregs_ g |}.

(** ** Block partitioner, intrinsic mode *)

Definition new_block (id : nat) (preds succs : list nat) : HBasicBlock :=
  {| block_id_ := id;
     instructions_ := [];
     phis_ := [];
     predecessors_ := preds;
     successors_ := succs;
     dominator_ := None;
     dominated_blocks_ := [];
     try_region_ := None;
     loop_header_ := false |}.

(** Modelled from the spec: [HBasicBlockBuilder::BuildIntrinsic]
    (block_builder.cc is missing).  "A distinct intrinsic-only mode bypasses the
    scan entirely: [...] it builds the minimal fixed skeleton (one entry block,
    one body block, one exit block) with no exception edges".  A new block
    takes the next free id. *)
Definition spec_BuildIntrinsic_blocks (g : HGraph) : HGraph :=
  let entry := List.length (blocks_ g) in
  let body := S entry in
  let exit := S body in
  {| blocks_ := blocks_ g ++ [new_block entry [] [body];
                              new_block body [entry] [exit];
                              new_block exit [body] []];
     entry_block_ := Some entry;
     number_of_vregs_ := number_of_vregs_ g;
     number_of_in_vregs_ := number_of_in_vregs_ g |}.

Definition spec_block_builder_BuildIntrinsic (this : HGraphBuilder)
    (h : Heap SpecStageObjects) : unit * Heap SpecStageObjects :=
  (tt, with_graph (spec_BuildIntrinsic_blocks (graph_ h)) h).

(** ** Dominator analyzer *)

Definition add_new (x : nat) (seen : list nat) : list nat :=
  if mem x seen then seen else seen ++ [x].

Definition successors_of (g : HGraph) (ids : list nat) : list nat :=
  flat_map (fun b => if mem (block_id_ b) ids then successors_ b else []) (blocks_ g).

Fixpoint reach (fuel : nat) (g : HGraph) (seen : list nat) : list nat :=
  match fuel with
  | O => seen
  | S fuel' => reach fuel' g (fold_left (fun acc x => add_new x acc) (successors_of g seen) seen)
  end.

(** The blocks reachable from the entry; a path has at most as many edges as
    the graph has blocks. *)
Definition reachable_blocks (g : HGraph) (entry : nat) : list nat :=
  reach (List.length (blocks_ g)) g [entry].

Definition DominatorSets : Type := list (nat * list nat).

Definition dominators_of (doms : DominatorSets) (id : nat) : list nat :=
  match find (fun e => Nat.eqb (fst e) id) doms with
  | Some e => snd e
  | None => []
  end.

Definition intersect (a b : list nat) : list nat := filter (fun x => mem x b) a.

(** One round of the iterative dataflow: the dominators of a block are the
    block and what dominates all of its (reachable) predecessors. *)
Definition dominator_round (live_blocks : list HBasicBlock) (live : list nat)
    (entry : nat) (doms : DominatorSets) : DominatorSets :=
  map (fun b =>
         let id := block_id_ b in
         if Nat.eqb id entry then (id, [id])
         else
           let preds := filter (fun p => mem p live) (predecessors_ b) in
           let common :=
             fold_left (fun acc p => intersect acc (dominators_of doms p)) preds live in
           (id, id :: filter (fun d => negb (Nat.eqb d id)) common))
      live_blocks.

Fixpoint dominator_fixpoint (fuel : nat) (live_blocks : list HBasicBlock)
    (live : list nat) (entry : nat) (doms : DominatorSets) : DominatorSets :=
  match fuel with
  | O => doms
  | S fuel' =>
      dominator_fixpoint fuel' live_blocks live entry
        (dominator_round live_blocks live entry doms)
  end.

(** The strict dominator that all other strict dominators dominate. *)
Definition immediate_dominator (doms : DominatorSets) (id : nat) : option nat :=
  let strict := filter (fun d => negb (Nat.eqb d id)) (dominators_of doms id) in
  find (fun d => Nat.eqb (List.length (dominators_of doms d)) (List.length strict)) strict.

Definition analyzed_block (live_blocks : list HBasicBlock) (live : list nat)
    (doms : DominatorSets) (b : HBasicBlock) : HBasicBlock :=
  let id := block_id_ b in
  let preds := filter (fun p => mem p live) (predecessors_ b) in
  {| block_id_ := id;
     instructions_ := instructions_ b;
     phis_ := phis_ b;
     predecessors_ := preds;
     successors_ := successors_ b;
     dominator_ := immediate_dominator doms id;
     dominated_blocks_ :=
       map block_id_
         (filter (fun c => match immediate_dominator doms (block_id_ c) with
                           | Some d => Nat.eqb d id
                           | None => false
                           end) live_blocks);
     try_region_ := try_region_ b;
     (* a loop header has "a predecessor that the block itself dominates" *)
     loop_header_ := existsb (fun p => mem id (dominators_of doms p)) preds |}.

(** Modelled from the spec: [HGraph::BuildDominatorTree] (nodes.cc is
    missing).  "Compute immediate-dominator parent for every reachable block
    and remove blocks unreachable from entry.  Fails only if the skeleton is
    malformed in a way that prevents a well-defined dominator tree (e.g., entry
    with a predecessor, or a block not reachable from entry that is nonetheless
    required by the try/catch table) - reported as a distinct
    structural-failure code".  The dominators are found by the "standard
    iterative dataflow"; a block the try/catch table requires is one with an
    enclosing try region. *)
Definition spec_BuildDominatorTree_graph (g : HGraph) : GraphAnalysisResult * HGraph :=
  match entry_block_ g with
  | None => (kAnalysisStructuralFailure DominatorAnalyzer, g)
  | Some entry =>
      match find_block g entry with
      | None => (kAnalysisStructuralFailure DominatorAnalyzer, g)
      | Some entry_block =>
          match predecessors_ entry_block with
          | _ :: _ => (kAnalysisStructuralFailure DominatorAnalyzer, g)
          | [] =>
              let live := reachable_blocks g entry in
              let required_but_dead (b : HBasicBlock) :=
                negb (mem (block_id_ b) live) &&
                match try_region_ b with Some _ => true | None => false end in
              if existsb required_but_dead (blocks_ g)
              then (kAnalysisStructuralFailure DominatorAnalyzer, g)
              else
                let live_blocks := filter (fun b => mem (block_id_ b) live) (blocks_ g) in
                let start := map (fun b => (block_id_ b,
                                            if Nat.eqb (block_id_ b) entry
                                            then [entry] else live)) live_blocks in
                let rounds := (List.length live_blocks * List.length live_blocks)%nat in
                let doms := dominator_fixpoint rounds live_blocks live entry start in
                (kAnalysisSuccess,
                 with_blocks (map (analyzed_block live_blocks live doms) live_blocks) g)
          end
      end
  end.

Definition spec_BuildDominatorTree (h : Heap SpecStageObjects)
    : GraphAnalysisResult * Heap SpecStageObjects :=
  let (result, g) := spec_BuildDominatorTree_graph (graph_ h) in
  (result, with_graph g h).

(** ** Instruction materializer, intrinsic mode *)

(** Modelled from the spec: [DataType::FromShorty] (data_type.h is missing),
    into the spec's result types. *)
Definition FromShorty (c : ascii) : ResultType :=
  if Ascii.eqb c "V" then kVoid
  else if Ascii.eqb c "L" then kReference
  else if Ascii.eqb c "F" || Ascii.eqb c "D" then kFloatLike
  else kIntegerLike.

(** "Wide values (64-bit)": shorty [J] and [D]. *)
Definition is_wide (c : ascii) : bool := Ascii.eqb c "J" || Ascii.eqb c "D".

(** The first constructor of [HGraphBuilder]: the return type is read off the
    shorty.  ([graph_] and [compilation_stats_] are in the heap.) *)
Definition new_HGraphBuilder (accessor : CodeItemDebugInfoAccessor)
    (dex_compilation_unit : DexCompilationUnit)
    (code_generator : option CodeGenerator) : HGraphBuilder :=
  {| code_item_accessor_ := accessor;
     dex_compilation_unit_ := dex_compilation_unit;
     code_generator_ := code_generator;
     return_type_ :=
       match GetShorty dex_compilation_unit with
       | String c _ => FromShorty c
       | EmptyString => kVoid
       end |}.

(** The second constructor, which the unit tests use: the return type is
    given, there is no code generator (and no statistics object). *)
Definition new_HGraphBuilder_for_tests (dex_compilation_unit : DexCompilationUnit)
    (accessor : CodeItemDebugInfoAccessor) (return_type : ResultType) : HGraphBuilder :=
  {| code_item_accessor_ := accessor;
     dex_compilation_unit_ := dex_compilation_unit;
     code_generator_ := None;
     return_type_ := return_type |}.

Definition with_locals (l : list (list ValueRef)) (h : Heap SpecStageObjects)
    : Heap SpecStageObjects :=
  {| graph_ := graph_ h;
     compilation_stats_ := compilation_stats_ h;
     stage_objects_ := {| locals_for_ := l |} |}.

Definition with_instructions (instrs : list HInstruction) (b : HBasicBlock) : HBasicBlock :=
  {| block_id_ := block_id_ b;
     instructions_ := instrs;
     phis_ := phis_ b;
     predecessors_ := predecessors_ b;
     successors_ := successors_ b;
     dominator_ := dominator_ b;
     dominated_blocks_ := dominated_blocks_ b;
     try_region_ := try_region_ b;
     loop_header_ := loop_header_ b |}.

(** The declared kinds of the incoming arguments, receiver first: its type and
    whether it is wide. *)
Definition argument_kinds (this : HGraphBuilder) : list (ResultType * bool) :=
  (if IsStatic (dex_compilation_unit_ this) then [] else [(kReference, false)]) ++
  map (fun c => (FromShorty c, is_wide c))
      (list_ascii_of_string (shorty_plus_1 (GetShorty (dex_compilation_unit_ this)))).

(** One parameter instruction per argument, ids counting from [first_id]. *)
Fixpoint parameter_values (first_id : nat) (kinds : list (ResultType * bool))
    : list (HInstruction * bool) :=
  match kinds with
  | [] => []
  | (type, wide) :: rest =>
      ({| id_ := first_id; opcode_ := kParameterValue; inputs_ := []; type_ := type |}, wide)
        :: parameter_values (S first_id) rest
  end.

Definition value_of (i : HInstruction) : ValueRef := Defined (id_ i) (type_ i).

(** "Argument vregs are assigned positions left-to-right, wide values (64-bit)
    occupy two consecutive vreg slots". *)
Definition argument_slots (params : list (HInstruction * bool)) : list ValueRef :=
  flat_map (fun p : HInstruction * bool =>
              if snd p then [value_of (fst p); value_of (fst p)]
                     else [value_of (fst p)]) params.

(** Write slot [n] of a list, which grows by [default]s when it is too short. *)
Definition set_list {A} (n : nat) (x : A) (default : A) (l : list A) : list A :=
  firstn n (l ++ repeat default (n - List.length l)) ++ [x] ++ skipn (S n) l.

(** Modelled from the spec: [HInstructionBuilder::BuildIntrinsic]
    (instruction_builder.cc is missing).  The entry block's array is "seeded from
    declared argument types/positions"; "the two highest-numbered vregs are
    permanently reserved for the return value regardless of its type".  Every
    non-exit block "ends in exactly one control-flow instruction": the entry in
    a goto, the body, which holds the call of the intrinsic, in a return.  On a
    graph that is not the intrinsic skeleton nothing is done. *)
Definition spec_instruction_builder_BuildIntrinsic (this : HGraphBuilder)
    (method : ArtMethod) (h : Heap SpecStageObjects) : unit * Heap SpecStageObjects :=
  let g := graph_ h in
  match entry_block_ g with
  | None => (tt, h)
  | Some entry =>
      match option_map successors_ (find_block g entry) with
      | Some [body] =>
          match option_map successors_ (find_block g body) with
          | Some [exit] =>
              let params := parameter_values 0 (argument_kinds this) in
              let n := List.length params in
              let goto := {| id_ := n; opcode_ := kGoto; inputs_ := []; type_ := kVoid |} in
              let invoke :=
                {| id_ := S n; opcode_ := kInvoke;
                   inputs_ := map (fun p : HInstruction * bool => value_of (fst p)) params;
                   type_ := return_type_ this |} in
              let returns :=
                match return_type_ this with
                | kVoid => {| id_ := S (S n); opcode_ := kReturnVoid;
                              inputs_ := []; type_ := kVoid |}
                | _ => {| id_ := S (S n); opcode_ := kReturn;
                          inputs_ := [value_of invoke]; type_ := kVoid |}
                end in
              let exits := {| id_ := S (S (S n)); opcode_ := kExit;
                              inputs_ := []; type_ := kVoid |} in
              let args := argument_slots params in
              let first_return_vreg := List.length args in
              let on_entry :=
                args ++ [Provisional entry first_return_vreg;
                         Provisional entry (S first_return_vreg)] in
              let on_return :=
                match return_type_ this with
                | kVoid => on_entry
                | _ => args ++ [value_of invoke; value_of invoke]
                end in
              let fill (b : HBasicBlock) :=
                if Nat.eqb (block_id_ b) entry
                then with_instructions (map fst params ++ [goto]) b
                else if Nat.eqb (block_id_ b) body
                then with_instructions [invoke; returns] b
                else if Nat.eqb (block_id_ b) exit
                then with_instructions [exits] b
                else b in
              let locals :=
                set_list exit on_return []
                  (set_list body on_return []
                     (set_list entry on_entry [] (locals_for_ (stage_objects_ h)))) in
              (tt, with_locals locals (with_graph (with_blocks (map fill (blocks_ g)) g) h))
          | _ => (tt, h)
          end
      | _ => (tt, h)
      end
  end.

(** ** SSA finalizer *)

Definition ResultType_eqb (a b : ResultType) : bool :=
  match a, b with
  | kVoid, kVoid | kIntegerLike, kIntegerLike | kFloatLike, kFloatLike
  | kReference, kReference | kNotYetTyped, kNotYetTyped => true
  | _, _ => false
  end.

(** Two references are the same value when they name the same instruction, at
    the same type, or the same block entry. *)
Definition ValueRef_eqb (a b : ValueRef) : bool :=
  match a, b with
  | Defined i s, Defined j t => Nat.eqb i j && ResultType_eqb s t
  | Provisional b1 v1, Provisional b2 v2 => Nat.eqb b1 b2 && Nat.eqb v1 v2
  | _, _ => false
  end.

Definition is_reference (t : ResultType) : bool :=
  match t with kReference => true | _ => false end.

Definition is_primitive (t : ResultType) : bool :=
  match t with kIntegerLike | kFloatLike => true | _ => false end.

Definition is_integer (t : ResultType) : bool :=
  match t with kIntegerLike => true | _ => false end.

Definition is_float (t : ResultType) : bool :=
  match t with kFloatLike => true | _ => false end.

Definition is_ambiguous (t : ResultType) : bool :=
  match t with kNotYetTyped => true | _ => false end.

(** The value of [vreg] when [block] is left; a slot the materializer never
    wrote still holds the block's placeholder. *)
Definition exit_value (l : SpecStageObjects) (block vreg : nat) : ValueRef :=
  nth vreg (nth block (locals_for_ l) []) (Provisional block vreg).

(** What flows into [vreg] at the head of [b]: "one input per predecessor
    edge, in predecessor order". *)
Definition incoming (l : SpecStageObjects) (b : HBasicBlock) (vreg : nat) : list ValueRef :=
  map (fun p => exit_value l p vreg) (predecessors_ b).

Definition all_same (xs : list ValueRef) : bool :=
  match xs with
  | [] => true
  | x :: rest => forallb (ValueRef_eqb x) rest
  end.

(** "True phi nodes at every block with >= 2 predecessors where incoming
    values differ". *)
Definition place_phis (l : SpecStageObjects) (number_of_vregs : nat) (b : HBasicBlock)
    : list HPhi :=
  if (2 <=? List.length (predecessors_ b))%nat then
    flat_map (fun vreg =>
                let inputs := incoming l b vreg in
                if all_same inputs then []
                else [{| reg_number_ := vreg; phi_inputs_ := inputs;
                         phi_type_ := kNotYetTyped |}])
             (seq 0 number_of_vregs)
  else [].

(** "Uses as array index, shift amount, or integer-only opcode input force
    integer; uses as float-arithmetic input force float". *)
Definition forced_input_type (op : Opcode) (position : nat) : option ResultType :=
  match op, position with
  | kIntegerOnly, _ => Some kIntegerLike
  | kFloatArithmetic, _ => Some kFloatLike
  | kArrayAccess, 1%nat => Some kIntegerLike
  | kShift, 1%nat => Some kIntegerLike
  | _, _ => None
  end.

Fixpoint forced_by_inputs (op : Opcode) (position : nat) (inputs : list ValueRef)
    (id : nat) : option ResultType :=
  match inputs with
  | [] => None
  | x :: rest =>
      match x, forced_input_type op position with
      | Defined used _, Some t =>
          if Nat.eqb used id then Some t else forced_by_inputs op (S position) rest id
      | _, _ => forced_by_inputs op (S position) rest id
      end
  end.

Fixpoint first_some {A B} (f : A -> option B) (l : list A) : option B :=
  match l with
  | [] => None
  | x :: rest => match f x with Some y => Some y | None => first_some f rest end
  end.

(** "The first non-ambiguous use found in a fixed traversal order": blocks in
    graph order, instructions in block order, inputs left to right. *)
Definition first_disambiguating_use (g : HGraph) (id : nat) : option ResultType :=
  first_some (fun i => forced_by_inputs (opcode_ i) 0 (inputs_ i) id)
             (flat_map instructions_ (blocks_ g)).

(** The type of a concrete instruction after resolution; "a value with no
    disambiguating use defaults to the representation implied by its bytecode
    declaration width", an integer of that width. *)
Definition resolved_type (g : HGraph) (id : nat) (declared : ResultType) : ResultType :=
  match declared with
  | kNotYetTyped =>
      match first_disambiguating_use g id with
      | Some t => t
      | None => kIntegerLike
      end
  | t => t
  end.

(** "A value is reference-typed if any contributing definition is
    reference-typed"; contradictory primitive types leave it ambiguous. *)
Definition merge_types (ts : list ResultType) : ResultType :=
  if existsb is_reference ts then kReference
  else if existsb is_integer ts
       then (if existsb is_float ts then kNotYetTyped else kIntegerLike)
       else if existsb is_float ts then kFloatLike else kNotYetTyped.

(** The resolved type of a value.  A block-entry value has the merged type of
    what flows into it; [fuel] bounds the walk through the predecessors. *)
Fixpoint type_of_value (fuel : nat) (g : HGraph) (l : SpecStageObjects) (x : ValueRef)
    : ResultType :=
  match x with
  | Defined id declared => resolved_type g id declared
  | Provisional block vreg =>
      match fuel with
      | O => kNotYetTyped
      | S fuel' =>
          match find_block g block with
          | Some b => merge_types (map (type_of_value fuel' g l) (incoming l b vreg))
          | None => kNotYetTyped
          end
      end
  end.

Definition input_types (g : HGraph) (l : SpecStageObjects) (phi : HPhi) : list ResultType :=
  map (type_of_value (List.length (blocks_ g)) g l) (phi_inputs_ phi).

Definition typed_phi (g : HGraph) (l : SpecStageObjects) (phi : HPhi) : HPhi :=
  {| reg_number_ := reg_number_ phi;
     phi_inputs_ := phi_inputs_ phi;
     phi_type_ := merge_types (input_types g l phi) |}.

(** "Mixing reference and primitive inputs into the same phi after
    resolution". *)
Definition mixes_reference_and_primitive (ts : list ResultType) : bool :=
  existsb is_reference ts && existsb is_primitive ts.

(** A phi "whose resolved inputs are all the identical value", its own value
    apart: the value it stands for. *)
Definition redundant_phi (block : nat) (phi : HPhi) : option ValueRef :=
  let self := Provisional block (reg_number_ phi) in
  match filter (fun x => negb (ValueRef_eqb x self)) (phi_inputs_ phi) with
  | x :: rest => if forallb (ValueRef_eqb x) rest then Some x else None
  | [] => None
  end.

Definition replace_value (old new : ValueRef) (x : ValueRef) : ValueRef :=
  if ValueRef_eqb x old then new else x.

Definition replace_in_phi (old new : ValueRef) (e : nat * HPhi) : nat * HPhi :=
  (fst e, {| reg_number_ := reg_number_ (snd e);
             phi_inputs_ := map (replace_value old new) (phi_inputs_ (snd e));
             phi_type_ := phi_type_ (snd e) |}).

(** Delete the first redundant phi, "replacing its uses with that value". *)
Fixpoint eliminate_one (seen phis : list (nat * HPhi)) : option (list (nat * HPhi)) :=
  match phis with
  | [] => None
  | e :: rest =>
      match redundant_phi (fst e) (snd e) with
      | Some x =>
          let self := Provisional (fst e) (reg_number_ (snd e)) in
          Some (map (replace_in_phi self x) (seen ++ rest))
      | None => eliminate_one (seen ++ [e]) rest
      end
  end.

(** "Each pass strictly reduces the phi count or terminates". *)
Fixpoint eliminate_redundant_phis (fuel : nat) (phis : list (nat * HPhi))
    : list (nat * HPhi) :=
  match fuel with
  | O => phis
  | S fuel' =>
      match eliminate_one [] phis with
      | Some fewer => eliminate_redundant_phis fuel' fewer
      | None => phis
      end
  end.

Definition finished_block (g : HGraph) (phis : list (nat * HPhi)) (b : HBasicBlock)
    : HBasicBlock :=
  {| block_id_ := block_id_ b;
     instructions_ :=
       map (fun i => {| id_ := id_ i; opcode_ := opcode_ i; inputs_ := inputs_ i;
                        type_ := resolved_type g (id_ i) (type_ i) |})
           (instructions_ b);
     phis_ := map snd (filter (fun e : nat * HPhi => Nat.eqb (fst e) (block_id_ b)) phis);
     predecessors_ := predecessors_ b;
     successors_ := successors_ b;
     dominator_ := dominator_ b;
     dominated_blocks_ := dominated_blocks_ b;
     try_region_ := try_region_ b;
     loop_header_ := loop_header_ b |}.

(** The phis of the whole graph, each with the id of its block. *)
Definition placed_phis (g : HGraph) (l : SpecStageObjects) : list (nat * HPhi) :=
  flat_map (fun b => map (fun phi => (block_id_ b, typed_phi g l phi))
                         (place_phis l (Z.to_nat (number_of_vregs_ g)) b))
           (blocks_ g).

(** Modelled from the spec: [SsaBuilder::BuildSsa] (ssa_builder.cc is missing).
    "Convert provisional per-block vreg arrays into true phi nodes [...],
    assign a concrete type to every phi and every instruction left ambiguous by
    the materializer, and delete any phi whose resolved inputs are all the
    identical value".  "Mixing reference and primitive inputs into the same phi
    after resolution is invalid-bytecode"; "if a phi remains ambiguous after
    the fixpoint [...], report invalid-bytecode". *)
Definition spec_BuildSsa (this : HGraphBuilder) (h : Heap SpecStageObjects)
    : GraphAnalysisResult * Heap SpecStageObjects :=
  let g := graph_ h in
  let l := stage_objects_ h in
  let phis := placed_phis g l in
  if existsb (fun e : nat * HPhi => mixes_reference_and_primitive (input_types g l (snd e))) phis
  then (kAnalysisInvalidBytecode, h)
  else
    let kept := eliminate_redundant_phis (List.length phis) phis in
    if existsb (fun e : nat * HPhi => is_ambiguous (phi_type_ (snd e))) kept
    then (kAnalysisInvalidBytecode, h)
    else (kAnalysisSuccess, with_graph (with_blocks (map (finished_block g kept) (blocks_ g)) g) h).

(** The stages of the specification behind the interface of the builder.  The
    two stages that read bytecode are left to the caller: decoding bytecode is
    outside the specification. *)
Definition spec_collaborators
    (partition materialize :
       HGraphBuilder -> Heap SpecStageObjects -> bool * Heap SpecStageObjects)
    : Collaborators :=
  {| StageObjects := SpecStageObjects;
     new_stage_objects := fun _ => {| locals_for_ := [] |};
     block_builder_Build := partition;
     block_builder_BuildIntrinsic := spec_block_builder_BuildIntrinsic;
     BuildDominatorTree := spec_BuildDominatorTree;
     instruction_builder_Build := materialize;
     instruction_builder_BuildIntrinsic := spec_instruction_builder_BuildIntrinsic;
     BuildSsa := spec_BuildSsa |}.

(* ===================================================================== *)
(** * Synthetic inputs *)
(* ===================================================================== *)

(** A partitioner that answers [ok] and leaves a given skeleton in the graph,
    and a materializer that answers [ok] and leaves given instructions and
    vreg arrays: the two bytecode stages, scripted. *)
Definition scripted_partitioner (ok : bool) (skeleton : list HBasicBlock) (entry : nat)
    (this : HGraphBuilder) (h : Heap SpecStageObjects) : bool * Heap SpecStageObjects :=
  (ok, with_graph {| blocks_ := blocks_ (graph_ h) ++ skeleton;
                     entry_block_ := Some entry;
                     number_of_vregs_ := number_of_vregs_ (graph_ h);
                     number_of_in_vregs_ := number_of_in_vregs_ (graph_ h) |} h).

Definition scripted_materializer (ok : bool) (code : list (list HInstruction))
    (locals : list (list ValueRef))
    (this : HGraphBuilder) (h : Heap SpecStageObjects) : bool * Heap SpecStageObjects :=
  (ok, with_locals locals
         (with_graph
            (with_blocks
               (map (fun b => with_instructions (nth (block_id_ b) code []) b)
                    (blocks_ (graph_ h)))
               (graph_ h)) h)).

Definition empty_graph : HGraph :=
  {| blocks_ := []; entry_block_ := None; number_of_vregs_ := 0; number_of_in_vregs_ := 0 |}.

(** An if-then-else: the entry branches to blocks 1 and 2, which meet in 3. *)
Definition diamond : list HBasicBlock :=
  [new_block 0 [] [1; 2]%nat;
   new_block 1 [0%nat] [3%nat];
   new_block 2 [0%nat] [3%nat];
   new_block 3 [1; 2]%nat []].

(** Block 1 leaves a new object in v0, block 2 an integer constant. *)
Definition diamond_code : list (list HInstruction) :=
  [[{| id_ := 0; opcode_ := kBranch; inputs_ := []; type_ := kVoid |}];
   [{| id_ := 1; opcode_ := kOtherOpcode 0; inputs_ := []; type_ := kReference |};
    {| id_ := 2; opcode_ := kGoto; inputs_ := []; type_ := kVoid |}];
   [{| id_ := 3; opcode_ := kConstant; inputs_ := []; type_ := kIntegerLike |};
    {| id_ := 4; opcode_ := kGoto; inputs_ := []; type_ := kVoid |}];
   [{| id_ := 5; opcode_ := kReturnVoid; inputs_ := []; type_ := kVoid |}]].

Definition diamond_locals : list (list ValueRef) :=
  [[Provisional 0 0];
   [Defined 1 kReference];
   [Defined 3 kIntegerLike];
   [Provisional 3 0]].

(** Both branches leave the same parameter in v0. *)
Definition agreeing_code : list (list HInstruction) :=
  [[{| id_ := 0; opcode_ := kParameterValue; inputs_ := []; type_ := kIntegerLike |};
    {| id_ := 1; opcode_ := kBranch; inputs_ := [Defined 0 kIntegerLike]; type_ := kVoid |}];
   [{| id_ := 2; opcode_ := kGoto; inputs_ := []; type_ := kVoid |}];
   [{| id_ := 3; opcode_ := kGoto; inputs_ := []; type_ := kVoid |}];
   [{| id_ := 4; opcode_ := kReturn; inputs_ := [Defined 0 kIntegerLike]; type_ := kVoid |}]].

Definition agreeing_locals : list (list ValueRef) :=
  [[Defined 0 kIntegerLike];
   [Defined 0 kIntegerLike];
   [Defined 0 kIntegerLike];
   [Defined 0 kIntegerLike]].

(** The stages on a well-formed method, on a method the partitioner rejects
    and on the method with the type conflict. *)
Definition accepting_stages : Collaborators :=
  spec_collaborators (scripted_partitioner true diamond 0)
                     (scripted_materializer true agreeing_code agreeing_locals).

Definition rejecting_stages : Collaborators :=
  spec_collaborators (scripted_partitioner false [] 0)
                     (scripted_materializer true [] []).

Definition conflicting_stages : Collaborators :=
  spec_collaborators (scripted_partitioner true diamond 0)
                     (scripted_materializer true diamond_code diamond_locals).

(** A method of [code_units] code units with one register, which is its
    argument, compiled at a filter other than [kEverything] unless
    [everything], with the huge-method threshold at 10000 code units. *)
Definition method_of_size (code_units : Z) (everything : bool) : HGraphBuilder :=
  new_HGraphBuilder
    {| HasCodeItem := true; registers_size_ := 1; ins_size_ := 1;
       InsnsSizeInCodeUnits := code_units |}
    {| GetDexMethodIndex := 1; IsStatic := true; GetShorty := "VI" |}
    (Some {| GetCompilerOptions :=
               {| GetCompilerFilter := if everything then kEverything else kOtherFilter 0;
                  huge_method_threshold_ := 10000 |} |}).

(** The same, built the way the unit tests do: no code generator. *)
Definition method_under_test (code_units : Z) : HGraphBuilder :=
  new_HGraphBuilder_for_tests
    {| GetDexMethodIndex := 1; IsStatic := true; GetShorty := "VI" |}
    {| HasCodeItem := true; registers_size_ := 1; ins_size_ := 1;
       InsnsSizeInCodeUnits := code_units |}
    kVoid.

(** An intrinsic with the given shorty. *)
Definition intrinsic_method (shorty : string) (static : bool) : HGraphBuilder :=
  new_HGraphBuilder
    {| HasCodeItem := false; registers_size_ := 0; ins_size_ := 0;
       InsnsSizeInCodeUnits := 0 |}
    {| GetDexMethodIndex := 1; IsStatic := static; GetShorty := shorty |}
    None.



Definition some_stats : option OptimizingCompilerStats := Some (fun _ => O).


(** The skeleton of an intrinsic after the dominator analysis: a chain. *)
Definition analyzed_intrinsic_skeleton : list HBasicBlock :=
  [{| block_id_ := 0; instructions_ := []; phis_ := [];
      predecessors_ := []; successors_ := [1%nat];
      dominator_ := None; dominated_blocks_ := [1%nat];
      try_region_ := None; loop_header_ := false |};
   {| block_id_ := 1; instructions_ := []; phis_ := [];
      predecessors_ := [0%nat]; successors_ := [2%nat];
      dominator_ := Some 0%nat; dominated_blocks_ := [2%nat];
      try_region_ := None; loop_header_ := false |};
   {| block_id_ := 2; instructions_ := []; phis_ := [];
      predecessors_ := [1%nat]; successors_ := [];
      dominator_ := Some 1%nat; dominated_blocks_ := [];
      try_region_ := None; loop_header_ := false |}].

(** The heaps the method with the type conflict goes through. *)
Definition conflict_method : HGraphBuilder := method_of_size 10 false.

Definition conflict_start : State SpecStageObjects :=
  initial_state conflicting_stages conflict_method empty_graph some_stats.

Definition conflict_partitioned : Heap SpecStageObjects :=
  snd (block_builder_Build conflicting_stages conflict_method
         (after_setters conflicting_stages conflict_method (heap_ conflict_start))).

Definition conflict_analyzed : Heap SpecStageObjects :=
  snd (BuildDominatorTree conflicting_stages conflict_partitioned).

Definition conflict_materialized : Heap SpecStageObjects :=
  snd (instruction_builder_Build conflicting_stages conflict_method conflict_analyzed).

(** The block the two branches meet in. *)
Definition conflict_merge_block : HBasicBlock :=
  {| block_id_ := 3;
     instructions_ := [{| id_ := 5; opcode_ := kReturnVoid; inputs_ := []; type_ := kVoid |}];
     phis_ := [];
     predecessors_ := [1; 2]%nat;
     successors_ := [];
     dominator_ := Some 0%nat;
     dominated_blocks_ := [];
     try_region_ := None;
     loop_header_ := false |}.

(* ===================================================================== *)
(** * Reading the log of calls *)
(* ===================================================================== *)

(** The place of a call in the order builder.cc makes its calls in: the two
    setters, the block builder, the skip decision ([BuildGraph] only), the
    dominator analysis, the instruction builder, the SSA builder. *)
Definition stage_rank (c : Call) : nat :=
  match c with
  | CallSetNumberOfVRegs _ => 0
  | CallSetNumberOfInVRegs _ => 1
  | CallBlockBuilderBuild _ | CallBlockBuilderBuildIntrinsic => 2
  | CallSkipCompilation _ => 3
  | CallBuildDominatorTree _ => 4
  | CallInstructionBuilderBuild _ | CallInstructionBuilderBuildIntrinsic _ => 5
  | CallBuildSsa _ => 6
  end%nat.

(** What [BuildGraph] returns when it returns right after a call: the tests at
    lines 118, 124, 130 and 135 and the [return] at line 140. *)
Definition outcome_of_call (c : Call) : GraphAnalysisResult :=
  match c with
  | CallBlockBuilderBuild ok => if ok then kAnalysisSuccess else kAnalysisInvalidBytecode
  | CallSkipCompilation skip => if skip then kAnalysisSkipped else kAnalysisSuccess
  | CallBuildDominatorTree result => result
  | CallInstructionBuilderBuild ok => if ok then kAnalysisSuccess else kAnalysisInvalidBytecode
  | CallBuildSsa result => result
  | _ => kAnalysisSuccess
  end.

(** A call after which [BuildGraph] goes on to the next step. *)
Definition lets_the_build_go_on (c : Call) : bool :=
  GraphAnalysisResult_eqb (outcome_of_call c) kAnalysisSuccess.

(** The value of one counter of a statistics object; a null pointer counts
    nothing. *)
Definition counted (stats : option OptimizingCompilerStats) (stat : MethodCompilationStat)
    : nat :=
  match stats with
  | Some counters => counters stat
  | None => O
  end.

(* ===================================================================== *)
(** * How a run unfolds *)
(* ===================================================================== *)

(** A 16-bit value is not changed by the conversion to 16 bits. *)
Lemma to_uint16_to_uint16 (x : Z) : to_uint16 (to_uint16 x) = to_uint16 x.
Proof. unfold to_uint16. apply Zmod_mod. Qed.

Lemma to_uint16_small (x : Z) : 0 <= x <= 65535 -> to_uint16 x = x.
Proof.
  intros Hx. unfold to_uint16, vreg_count_bits. change (2 ^ 16) with 65536.
  apply Z.mod_small. lia.
Qed.

Section BuildGraphRuns.
Variable C : Collaborators.
Variable this : HGraphBuilder.

Lemma SkipCompilation_run (s : State (StageObjects C)) :
  SkipCompilation C this s =
    (skip_decision this,
     {| heap_ := skip_effect C this (heap_ s);
        calls_ := calls_ s;
        failed_dchecks_ := failed_dchecks_ s |}).
Proof.
  unfold SkipCompilation, skip_effect, skip_decision.
  destruct s as [h cs ds]; simpl.
  destruct (code_generator_ this) as [cg|]; [|reflexivity].
  destruct (CompilerFilter_eqb _ _); [reflexivity|].
  destruct (IsHugeMethod _ _); reflexivity.
Qed.

Lemma GraphAnalysisResult_eqb_eq (a b : GraphAnalysisResult) :
  GraphAnalysisResult_eqb a b = true <-> a = b.
Proof.
  split.
  - destruct a as [| |s|], b as [| |t|]; simpl; try discriminate; try reflexivity.
    destruct s, t; simpl; try discriminate; reflexivity.
  - intros <-. destruct a as [| |s|]; simpl; try reflexivity.
    destruct s; reflexivity.
Qed.

Local Arguments SkipCompilation : simpl never.

(** Every run of [BuildGraph] takes one of the five paths, and the only
    [DCHECK]s that can fail are the two on the function's precondition. *)
Lemma BuildGraph_run (graph : HGraph) (stats : option OptimizingCompilerStats) :
  exists result h calls,
    BuildGraph C this (initial_state C this graph stats) =
      (result, {| heap_ := h;
                  calls_ := calls;
                  failed_dchecks_ := BuildGraph_precondition_failures this graph |}) /\
    BuildGraph_path C this (heap_ (initial_state C this graph stats)) result h calls.
Proof.
  unfold BuildGraph, initial_state, bind, DCHECK, read, call, ret, call_SkipCompilation,
    blocks_empty, BuildGraph_precondition_failures.
  set (h := {| graph_ := graph; compilation_stats_ := stats;
               stage_objects_ := new_stage_objects C this |}).
  destruct (HasCodeItem (code_item_accessor_ this)); simpl;
    destruct (blocks_ graph) as [|b bs] eqn:Hb; simpl;
    (match goal with
     | |- context [block_builder_Build C this ?x] =>
         destruct (block_builder_Build C this x) as [[|] h1] eqn:H1
     end; simpl;
     [ rewrite SkipCompilation_run; simpl;
       destruct (skip_decision this) eqn:Hs; simpl;
       [ do 3 eexists; split; [reflexivity| eapply path_skipped; eassumption]
       | destruct (BuildDominatorTree C (skip_effect C this h1)) as [d h3] eqn:H3; simpl;
         destruct (GraphAnalysisResult_eqb d kAnalysisSuccess) eqn:Hd; simpl;
         [ apply GraphAnalysisResult_eqb_eq in Hd; subst d;
           destruct (instruction_builder_Build C this h3) as [[|] h4] eqn:H4; simpl;
           [ destruct (BuildSsa C this h4) as [f h5] eqn:H5; simpl;
             do 3 eexists; split; [reflexivity| eapply path_ssa; eassumption]
           | do 3 eexists; split; [reflexivity| eapply path_instructions_failed; eassumption] ]
         | do 3 eexists; split; [reflexivity|];
           eapply path_dominators_failed; try eassumption;
           intros ->; simpl in Hd; discriminate ] ]
     | do 3 eexists; split; [reflexivity| eapply path_blocks_failed; eassumption] ]).
Qed.
End BuildGraphRuns.

Section IntrinsicRuns.
Variable C : Collaborators.
Variable this : HGraphBuilder.
Variable method : ArtMethod.

(** [BuildIntrinsicGraph] has one way through. *)
Lemma BuildIntrinsicGraph_run (graph : HGraph) (stats : option OptimizingCompilerStats) :
  let blocks :=
    block_builder_BuildIntrinsic C this
      (after_intrinsic_setters C this (heap_ (initial_state C this graph stats))) in
  let dominators := BuildDominatorTree C (snd blocks) in
  let instructions := instruction_builder_BuildIntrinsic C this method (snd dominators) in
  let ssa := BuildSsa C this (snd instructions) in
  BuildIntrinsicGraph C this method (initial_state C this graph stats) =
    (tt,
     {| heap_ := snd ssa;
        calls_ := [CallSetNumberOfVRegs (to_uint16 (to_size_t (2 + num_arg_vregs this)));
                   CallSetNumberOfInVRegs (to_uint16 (num_arg_vregs this));
                   CallBlockBuilderBuildIntrinsic;
                   CallBuildDominatorTree (fst dominators);
                   CallInstructionBuilderBuildIntrinsic method;
                   CallBuildSsa (fst ssa)];
        failed_dchecks_ :=
          BuildIntrinsicGraph_precondition_failures this graph ++
          (if GraphAnalysisResult_eqb (fst dominators) kAnalysisSuccess
           then [] else [DCheck_bdt_result_is_success]) ++
          (if GraphAnalysisResult_eqb (fst ssa) kAnalysisSuccess
           then [] else [DCheck_build_ssa_result_is_success]) |}).
Proof.
  intros blocks dominators instructions ssa.
  subst blocks dominators instructions ssa.
  unfold BuildIntrinsicGraph, bind, call, DCHECK, read, ret, initial_state,
    BuildIntrinsicGraph_precondition_failures, blocks_empty, after_intrinsic_setters.
  cbn [heap_ calls_ failed_dchecks_ graph_ fst snd].
  destruct (block_builder_BuildIntrinsic C this _) as [[] h1].
  cbn [heap_ calls_ failed_dchecks_ graph_ fst snd].
  destruct (BuildDominatorTree C h1) as [bdt_result h2].
  cbn [heap_ calls_ failed_dchecks_ graph_ fst snd].
  destruct (instruction_builder_BuildIntrinsic C this method h2) as [[] h3].
  cbn [heap_ calls_ failed_dchecks_ graph_ fst snd].
  destruct (BuildSsa C this h3) as [build_ssa_result h4].
  cbn [heap_ calls_ failed_dchecks_ graph_ fst snd app].
  f_equal. f_equal.
  destruct (HasCodeItem _), (blocks_ graph); cbn [negb app]; rewrite <- ?app_assoc;
    reflexivity.
Qed.
End IntrinsicRuns.

(* ===================================================================== *)
(** * The orchestrator *)
(* ===================================================================== *)

Section Orchestrator.
Variable C : Collaborators.
Variable this : HGraphBuilder.
Variable graph : HGraph.
Variable stats : option OptimizingCompilerStats.

(** C1.  [BuildGraph] answers [kAnalysisSuccess] only if the partitioner, the
    dominator analysis, the materializer and the SSA finalizer all succeed
    (and the method is not skipped).  A partitioner failure gives
    [kAnalysisInvalidBytecode], the skip policy [kAnalysisSkipped], a failed
    dominator analysis its own result code, a materializer failure
    [kAnalysisInvalidBytecode], and otherwise the SSA finalizer's result is
    the answer.  Whatever the stages answer, no [DCHECK] fires on a call
    that meets the precondition: the outcome is always a returned value. *)
Theorem BuildGraph_result_code :
  let start := initial_state C this graph stats in
  let blocks := block_builder_Build C this (after_setters C this (heap_ start)) in
  let skip := SkipCompilation C this (state_of_heap (snd blocks)) in
  let dominators := BuildDominatorTree C (heap_ (snd skip)) in
  let instructions := instruction_builder_Build C this (snd dominators) in
  let ssa := BuildSsa C this (snd instructions) in
  let run := BuildGraph C this start in
  (fst run = kAnalysisSuccess ->
     fst blocks = true /\ fst skip = false /\ fst dominators = kAnalysisSuccess /\
     fst instructions = true /\ fst ssa = kAnalysisSuccess) /\
  (fst blocks = false -> fst run = kAnalysisInvalidBytecode) /\
  (fst blocks = true -> fst skip = true -> fst run = kAnalysisSkipped) /\
  (fst blocks = true -> fst skip = false -> fst dominators <> kAnalysisSuccess ->
     fst run = fst dominators) /\
  (fst blocks = true -> fst skip = false -> fst dominators = kAnalysisSuccess ->
     fst instructions = false -> fst run = kAnalysisInvalidBytecode) /\
  (fst blocks = true -> fst skip = false -> fst dominators = kAnalysisSuccess ->
     fst instructions = true -> fst run = fst ssa) /\
  (HasCodeItem (code_item_accessor_ this) = true -> blocks_ graph = [] ->
     failed_dchecks_ (snd run) = []).
Proof.
  intros start blocks skip dominators instructions ssa run.
  subst blocks skip dominators instructions ssa run.
  rewrite SkipCompilation_run.
  destruct (BuildGraph_run C this graph stats) as (result & h & calls & Hrun & Hpath).
  fold start in Hrun, Hpath. rewrite Hrun.
  cbn [fst snd failed_dchecks_].
  unfold BuildGraph_precondition_failures, state_of_heap.
  inversion Hpath as [h1 H1|h1 H1 Hs|h1 r h3 H1 Hs H3 Hr|h1 h3 h4 H1 Hs H3 H4
                      |h1 h3 h4 r h5 H1 Hs H3 H4 H5]; subst;
    rewrite ?H1; cbn [fst snd]; simpl (heap_ _); rewrite ?Hs; rewrite ?H3; cbn [fst snd];
    rewrite ?H4; cbn [fst snd]; rewrite ?H5; cbn [fst snd];
    repeat split; try congruence; try (intros; congruence);
    try (intros -> ->; reflexivity).
Qed.

Lemma nil_eq_app_cons {A} (y : A) (before after : list A) :
  [] = before ++ y :: after -> False.
Proof. destruct before; discriminate. Qed.

Lemma cons_eq_app_cons {A} (x y : A) (l before after : list A) :
  x :: l = before ++ y :: after ->
  (before = [] /\ x = y /\ l = after) \/
  (exists before', before = x :: before' /\ l = before' ++ y :: after).
Proof.
  destruct before as [|b before]; simpl; intros H; injection H as -> ->.
  - left. repeat split.
  - right. eexists. split; reflexivity.
Qed.

Ltac unstitch H :=
  first
    [ apply nil_eq_app_cons in H; contradiction
    | apply cons_eq_app_cons in H;
      let E := fresh "E" in
      destruct H as [(? & E & ?) | (? & ? & H)]; subst;
      [ try discriminate E | unstitch H ] ].

(** C2.  The skip decision is taken once, directly after a successful block
    partitioning and before the dominator analysis: whatever precedes it in
    the log is the two setters and the partitioner's success, and what
    follows, if anything, starts with the dominator analysis.  When the
    answer is [kAnalysisSkipped], no later stage has run.  (The dominator
    analysis and the SSA finalizer report failures of their own; they have
    no skip policy.) *)
Theorem BuildGraph_skip_decision_placement :
  (forall h, fst (BuildDominatorTree C h) <> kAnalysisSkipped) ->
  (forall h, fst (BuildSsa C this h) <> kAnalysisSkipped) ->
  let run := BuildGraph C this (initial_state C this graph stats) in
  (forall before skip after,
      calls_ (snd run) = before ++ CallSkipCompilation skip :: after ->
      before = setter_calls this ++ [CallBlockBuilderBuild true] /\
      (skip = true -> after = []) /\
      (skip = false ->
         exists result rest,
           after = CallBuildDominatorTree result :: rest /\
           forall again, ~ In (CallSkipCompilation again) rest)) /\
  (fst run = kAnalysisSkipped ->
     calls_ (snd run) =
       setter_calls this ++ [CallBlockBuilderBuild true; CallSkipCompilation true] /\
     existsb is_later_stage (calls_ (snd run)) = false).
Proof.
  intros Hdom Hssa run. subst run.
  destruct (BuildGraph_run C this graph stats) as (result & h & calls & Hrun & Hpath).
  rewrite Hrun. cbn [fst snd calls_].
  inversion Hpath as [h1 H1|h1 H1 Hs|h1 r h3 H1 Hs H3 Hr|h1 h3 h4 H1 Hs H3 H4
                      |h1 h3 h4 r h5 H1 Hs H3 H4 H5]; subst; unfold setter_calls; simpl.
  - split; [intros before skip after H; unstitch H | discriminate].
  - split; [intros before skip after H; unstitch H | intros _; split; reflexivity].
    injection E as <-. repeat split; [discriminate].
  - split.
    + intros before skip after H; unstitch H.
      injection E as <-. repeat split; [discriminate|]. intros _.
      exists result, []. split; [reflexivity|]. intros again [].
    + intros ->. exfalso. apply (Hdom (skip_effect C this h1)). rewrite H3. reflexivity.
  - split; [|discriminate].
    intros before skip after H; unstitch H.
    injection E as <-. repeat split; [discriminate|]. intros _.
    do 2 eexists. split; [reflexivity|]. intros again [Hin|[]]. discriminate Hin.
  - split.
    + intros before skip after H; unstitch H.
      injection E as <-. repeat split; [discriminate|]. intros _.
      do 2 eexists. split; [reflexivity|].
      intros again [Hin|[Hin|[]]]; discriminate Hin.
    + intros ->. exfalso. apply (Hssa h4). rewrite H5. reflexivity.
Qed.

(** C3.  When block partitioning fails, [BuildGraph] answers
    [kAnalysisInvalidBytecode] right away: the log ends with the partitioner's
    call, so neither the skip decision nor the dominator analysis, the
    materializer or the SSA finalizer has run, and the heap is the one the
    partitioner left. *)
Theorem BuildGraph_partitioner_failure (h1 : Heap (StageObjects C)) :
  block_builder_Build C this
    (after_setters C this (heap_ (initial_state C this graph stats))) = (false, h1) ->
  BuildGraph C this (initial_state C this graph stats) =
    (kAnalysisInvalidBytecode,
     {| heap_ := h1;
        calls_ := setter_calls this ++ [CallBlockBuilderBuild false];
        failed_dchecks_ := BuildGraph_precondition_failures this graph |}) /\
  forall c, In c (calls_ (snd (BuildGraph C this (initial_state C this graph stats)))) ->
            is_later_stage c = false /\ forall skip, c <> CallSkipCompilation skip.
Proof.
  intros Hblocks.
  destruct (BuildGraph_run C this graph stats) as (result & h & calls & Hrun & Hpath).
  assert (Heq : result = kAnalysisInvalidBytecode /\ h = h1 /\
                calls = setter_calls this ++ [CallBlockBuilderBuild false]).
  { inversion Hpath; subst; try congruence.
    repeat split. congruence. }
  destruct Heq as (-> & -> & ->). rewrite Hrun. split; [reflexivity|].
  cbn [snd calls_]. unfold setter_calls. simpl.
  intros c [<-|[<-|[<-|[]]]]; split; try reflexivity; discriminate.
Qed.

Lemma skip_effect_graph (h : Heap (StageObjects C)) :
  graph_ (skip_effect C this h) = graph_ h.
Proof. unfold skip_effect. destruct (skip_decision this); reflexivity. Qed.

(** C8.  The first two things [BuildGraph] does are to set the graph's vreg
    count to the code item's [RegistersSize] and its incoming-vreg count to
    [InsSize]; every stage call comes after them.  [BuildGraph] never writes
    the two fields again, so with stages that leave them alone they hold
    these values when [BuildGraph] returns, whatever it returns. *)
Theorem BuildGraph_vreg_counts :
  keeps_vreg_counts (block_builder_Build C this) ->
  keeps_vreg_counts (BuildDominatorTree C) ->
  keeps_vreg_counts (instruction_builder_Build C this) ->
  keeps_vreg_counts (BuildSsa C this) ->
  let run := BuildGraph C this (initial_state C this graph stats) in
  (exists stages,
      calls_ (snd run) =
        CallSetNumberOfVRegs (RegistersSize (code_item_accessor_ this))
          :: CallSetNumberOfInVRegs (InsSize (code_item_accessor_ this)) :: stages /\
      forallb is_stage stages = true) /\
  number_of_vregs_ (graph_ (heap_ (snd run))) = RegistersSize (code_item_accessor_ this) /\
  number_of_in_vregs_ (graph_ (heap_ (snd run))) = InsSize (code_item_accessor_ this).
Proof.
  intros K1 K2 K3 K4 run. subst run.
  destruct (BuildGraph_run C this graph stats) as (result & h & calls & Hrun & Hpath).
  rewrite Hrun. cbn [snd calls_ heap_].
  assert (H0 : number_of_vregs_ (graph_ (after_setters C this
                 (heap_ (initial_state C this graph stats)))) =
               RegistersSize (code_item_accessor_ this) /\
               number_of_in_vregs_ (graph_ (after_setters C this
                 (heap_ (initial_state C this graph stats)))) =
               InsSize (code_item_accessor_ this))
    by (split; [exact (to_uint16_to_uint16 (registers_size_ (code_item_accessor_ this)))
               |exact (to_uint16_to_uint16 (ins_size_ (code_item_accessor_ this)))]).
  inversion Hpath as [h1 H1|h1 H1 Hs|h1 r h3 H1 Hs H3 Hr|h1 h3 h4 H1 Hs H3 H4
                      |h1 h3 h4 r h5 H1 Hs H3 H4 H5]; subst;
    (split; [eexists; split; [reflexivity|reflexivity]|]);
    pose proof (K1 (after_setters C this (heap_ (initial_state C this graph stats)))) as P1;
    rewrite H1 in P1; cbn [snd] in P1;
    rewrite ?skip_effect_graph.
  - destruct P1, H0. split; congruence.
  - destruct P1, H0. split; congruence.
  - pose proof (K2 (skip_effect C this h1)) as P2. rewrite H3, skip_effect_graph in P2.
    cbn [snd] in P2. destruct P1, P2, H0. split; congruence.
  - pose proof (K2 (skip_effect C this h1)) as P2. rewrite H3, skip_effect_graph in P2.
    pose proof (K3 h3) as P3. rewrite H4 in P3.
    cbn [snd] in P2, P3. destruct P1, P2, P3, H0. split; congruence.
  - pose proof (K2 (skip_effect C this h1)) as P2. rewrite H3, skip_effect_graph in P2.
    pose proof (K3 h3) as P3. rewrite H4 in P3.
    pose proof (K4 h4) as P4. rewrite H5 in P4.
    cbn [snd] in P2, P3, P4. destruct P1, P2, P3, P4, H0. split; congruence.
Qed.

Lemma CompilerFilter_eqb_eq (a b : CompilerFilter) :
  CompilerFilter_eqb a b = true <-> a = b.
Proof.
  destruct a as [|m], b as [|n]; simpl; split; try discriminate; try reflexivity.
  - intros H. apply Nat.eqb_eq in H. congruence.
  - intros [= ->]. apply Nat.eqb_refl.
Qed.

(** C9.  [SkipCompilation] answers false, and changes nothing, whenever the
    code generator is null or the compiler filter is [kEverything], whatever
    the size of the method.  Only otherwise is the size looked at: the answer
    is then that of [IsHugeMethod] on the number of code units. *)
Theorem SkipCompilation_guards (s : State (StageObjects C)) :
  (code_generator_ this = None \/
   (exists code_generator,
       code_generator_ this = Some code_generator /\
       GetCompilerFilter (GetCompilerOptions code_generator) = kEverything) ->
   SkipCompilation C this s = (false, s)) /\
  (forall code_generator,
      code_generator_ this = Some code_generator ->
      GetCompilerFilter (GetCompilerOptions code_generator) <> kEverything ->
      fst (SkipCompilation C this s) =
        IsHugeMethod (GetCompilerOptions code_generator)
                     (InsnsSizeInCodeUnits (code_item_accessor_ this))).
Proof.
  split.
  - intros [Hnull | (cg & Hcg & Hfilter)]; unfold SkipCompilation.
    + rewrite Hnull. reflexivity.
    + rewrite Hcg, Hfilter. reflexivity.
  - intros cg Hcg Hfilter. unfold SkipCompilation. rewrite Hcg.
    destruct (CompilerFilter_eqb _ _) eqn:E.
    + apply CompilerFilter_eqb_eq in E. contradiction.
    + destruct (IsHugeMethod _ _); reflexivity.
Qed.

(** C7, as amended.  With a code generator and a filter other than
    [kEverything]: at exactly the threshold [SkipCompilation] answers false,
    and [BuildGraph] does not answer [kAnalysisSkipped] (the dominator
    analysis and the SSA finalizer having no skip policy of their own); one
    code unit above, [SkipCompilation] answers true, and [BuildGraph] answers
    [kAnalysisSkipped] once block partitioning has succeeded. *)
Theorem BuildGraph_huge_method_boundary (code_generator : CodeGenerator) :
  code_generator_ this = Some code_generator ->
  GetCompilerFilter (GetCompilerOptions code_generator) <> kEverything ->
  let threshold := huge_method_threshold_ (GetCompilerOptions code_generator) in
  let code_units := InsnsSizeInCodeUnits (code_item_accessor_ this) in
  let start := initial_state C this graph stats in
  (code_units = threshold ->
     (forall s, SkipCompilation C this s = (false, s)) /\
     ((forall h, fst (BuildDominatorTree C h) <> kAnalysisSkipped) ->
      (forall h, fst (BuildSsa C this h) <> kAnalysisSkipped) ->
      fst (BuildGraph C this start) <> kAnalysisSkipped)) /\
  (code_units = threshold + 1 ->
     (forall s, fst (SkipCompilation C this s) = true) /\
     (fst (block_builder_Build C this (after_setters C this (heap_ start))) = true ->
      fst (BuildGraph C this start) = kAnalysisSkipped)).
Proof.
  intros Hcg Hfilter threshold code_units start.
  assert (Hf : CompilerFilter_eqb (GetCompilerFilter (GetCompilerOptions code_generator))
                 kEverything = false).
  { destruct (CompilerFilter_eqb _ _) eqn:E; [|reflexivity].
    apply CompilerFilter_eqb_eq in E. contradiction. }
  assert (Hdecision : skip_decision this =
                      (threshold <? code_units)).
  { unfold skip_decision. rewrite Hcg, Hf. reflexivity. }
  destruct (BuildGraph_run C this graph stats) as (result & h & calls & Hrun & Hpath).
  fold start in Hrun, Hpath. rewrite Hrun. cbn [fst].
  split; intros Hsize.
  - assert (Hs : skip_decision this = false).
    { rewrite Hdecision, Hsize. apply Z.ltb_irrefl. }
    split.
    + intros s. rewrite SkipCompilation_run. unfold skip_effect. rewrite Hs.
      destruct s; reflexivity.
    + intros Hdom Hssa.
      inversion Hpath as [h1 H1|h1 H1 Hs'|h1 r h3 H1 Hs' H3 Hr|h1 h3 h4 H1 Hs' H3 H4
                          |h1 h3 h4 r h5 H1 Hs' H3 H4 H5]; subst;
        try discriminate; try congruence.
      * intros ->. apply (Hdom (skip_effect C this h1)). rewrite H3. reflexivity.
      * intros ->. apply (Hssa h4). rewrite H5. reflexivity.
  - assert (Hs : skip_decision this = true).
    { rewrite Hdecision, Hsize. apply Z.ltb_lt. lia. }
    split.
    + intros s. rewrite SkipCompilation_run. exact Hs.
    + intros Hblocks.
      inversion Hpath as [h1 H1|h1 H1 Hs'|h1 r h3 H1 Hs' H3 Hr|h1 h3 h4 H1 Hs' H3 H4
                          |h1 h3 h4 r h5 H1 Hs' H3 H4 H5]; subst;
        try reflexivity; try congruence.
      rewrite H1 in Hblocks. discriminate.
Qed.
End Orchestrator.

(* ===================================================================== *)
(** * The intrinsic path *)
(* ===================================================================== *)

Lemma length_list_ascii_of_string (s : string) :
  List.length (list_ascii_of_string s) = String.length s.
Proof. induction s as [|c s IH]; simpl; [reflexivity | now rewrite IH]. Qed.

Lemma std_count_whole (s : string) (value : ascii) :
  std_count s (strlen s) value = count_chars (list_ascii_of_string s) value.
Proof.
  unfold std_count, strlen. rewrite Nat2Z.id, <- length_list_ascii_of_string.
  now rewrite firstn_all.
Qed.

Lemma count_chars_bounds (l : list ascii) (value : ascii) :
  0 <= count_chars l value <= Z.of_nat (List.length l).
Proof.
  induction l as [|c l IH]; cbn [List.length count_chars]; [lia|].
  rewrite Nat2Z.inj_succ. destruct (Ascii.eqb c value); lia.
Qed.

(** The two counts of line 151 together count the wide arguments. *)
Lemma count_wide (l : list ascii) :
  count_chars l "J" + count_chars l "D" = Z.of_nat (List.length (filter is_wide l)).
Proof.
  induction l as [|c l IH]; [reflexivity|].
  cbn [count_chars filter]. unfold is_wide at 1.
  destruct (Ascii.eqb_spec c "J") as [->|HJ].
  - change (Ascii.eqb "J" "D") with false. cbn [orb List.length].
    rewrite Nat2Z.inj_succ. lia.
  - destruct (Ascii.eqb_spec c "D") as [->|HD]; cbn [orb List.length];
      rewrite ?Nat2Z.inj_succ; lia.
Qed.


Section IntrinsicLayout.
Variable C : Collaborators.
Variable this : HGraphBuilder.
Variable method : ArtMethod.
Variable graph : HGraph.
Variable stats : option OptimizingCompilerStats.

(** What lines 148 to 153 compute, when the argument count is one a dex file
    can hold. *)
Lemma num_arg_vregs_value (return_type : ascii) (arguments : string) :
  GetShorty (dex_compilation_unit_ this) = String return_type arguments ->
  Z.of_nat (String.length arguments) < 2 ^ 32 ->
  num_arg_vregs this =
    Z.of_nat (String.length arguments) +
    Z.of_nat (List.length (filter is_wide (list_ascii_of_string arguments))) +
    (if IsStatic (dex_compilation_unit_ this) then 0 else 1) /\
  to_size_t (2 + num_arg_vregs this) = num_arg_vregs this + 2.
Proof.
  intros Hshorty Hlen.
  set (num_args := Z.of_nat (String.length arguments)) in *.
  set (num_wide_args :=
         Z.of_nat (List.length (filter is_wide (list_ascii_of_string arguments)))).
  set (receiver := if IsStatic (dex_compilation_unit_ this) then 0 else 1).
  assert (Hwide : 0 <= num_wide_args <= num_args).
  { subst num_wide_args num_args. split; [lia|].
    rewrite <- length_list_ascii_of_string. apply inj_le, filter_length_le. }
  assert (Hreceiver : 0 <= receiver <= 1).
  { subst receiver. destruct (IsStatic _); lia. }
  change (2 ^ 32) with 4294967296 in Hlen.
  assert (Hvalue : num_arg_vregs this = num_args + num_wide_args + receiver).
  { unfold num_arg_vregs. rewrite Hshorty. cbn [shorty_plus_1].
    rewrite !std_count_whole, count_wide.
    fold num_wide_args receiver. unfold strlen. fold num_args.
    unfold to_size_t, size_t_bits. change (2 ^ 64) with 18446744073709551616.
    rewrite (Z.mod_small num_wide_args) by lia.
    rewrite (Z.mod_small (num_args + num_wide_args)) by lia.
    rewrite Z.mod_small by lia. reflexivity. }
  split; [exact Hvalue|].
  rewrite Hvalue. unfold to_size_t, size_t_bits.
  change (2 ^ 64) with 18446744073709551616.
  rewrite Z.mod_small by lia. lia.
Qed.


End IntrinsicLayout.

(* ===================================================================== *)
(** * The stages of the specification *)
(* ===================================================================== *)

Lemma spec_BuildDominatorTree_result (h : Heap SpecStageObjects) :
  fst (spec_BuildDominatorTree h) = kAnalysisSuccess \/
  fst (spec_BuildDominatorTree h) = kAnalysisStructuralFailure DominatorAnalyzer.
Proof.
  unfold spec_BuildDominatorTree, spec_BuildDominatorTree_graph.
  destruct (entry_block_ (graph_ h)) as [entry|]; [|right; reflexivity].
  destruct (find_block (graph_ h) entry) as [b|]; [|right; reflexivity].
  destruct (predecessors_ b); [|right; reflexivity].
  destruct (existsb _ _); [right|left]; reflexivity.
Qed.

Lemma spec_BuildSsa_result (this : HGraphBuilder) (h : Heap SpecStageObjects) :
  fst (spec_BuildSsa this h) = kAnalysisSuccess \/
  fst (spec_BuildSsa this h) = kAnalysisInvalidBytecode.
Proof.
  unfold spec_BuildSsa.
  destruct (existsb _ _); [right; reflexivity|].
  destruct (existsb _ _); [right|left]; reflexivity.
Qed.

Lemma spec_BuildDominatorTree_never_skips (h : Heap SpecStageObjects) :
  fst (spec_BuildDominatorTree h) <> kAnalysisSkipped.
Proof. destruct (spec_BuildDominatorTree_result h) as [-> | ->]; discriminate. Qed.

Lemma spec_BuildSsa_never_skips (this : HGraphBuilder) (h : Heap SpecStageObjects) :
  fst (spec_BuildSsa this h) <> kAnalysisSkipped.
Proof. destruct (spec_BuildSsa_result this h) as [-> | ->]; discriminate. Qed.

Lemma spec_BuildDominatorTree_keeps_vreg_counts :
  keeps_vreg_counts spec_BuildDominatorTree.
Proof.
  intros h. unfold spec_BuildDominatorTree, spec_BuildDominatorTree_graph.
  destruct (entry_block_ (graph_ h)) as [entry|]; [|split; reflexivity].
  destruct (find_block (graph_ h) entry) as [b|]; [|split; reflexivity].
  destruct (predecessors_ b); [|split; reflexivity].
  destruct (existsb _ _); split; reflexivity.
Qed.

Lemma spec_BuildSsa_keeps_vreg_counts (this : HGraphBuilder) :
  keeps_vreg_counts (spec_BuildSsa this).
Proof.
  intros h. unfold spec_BuildSsa.
  destruct (existsb _ _); [split; reflexivity|].
  destruct (existsb _ _); split; reflexivity.
Qed.

Lemma spec_BuildIntrinsic_keeps_vreg_counts (this : HGraphBuilder) :
  keeps_vreg_counts (spec_block_builder_BuildIntrinsic this).
Proof. intros h. split; reflexivity. Qed.

Lemma spec_materializer_keeps_vreg_counts (this : HGraphBuilder) (method : ArtMethod) :
  keeps_vreg_counts (spec_instruction_builder_BuildIntrinsic this method).
Proof.
  intros h. unfold spec_instruction_builder_BuildIntrinsic.
  destruct (entry_block_ (graph_ h)) as [entry|]; [|split; reflexivity].
  destruct (option_map successors_ (find_block (graph_ h) entry)) as [[|body [|]]|];
    try (split; reflexivity).
  destruct (option_map successors_ (find_block (graph_ h) body)) as [[|exit [|]]|];
    split; reflexivity.
Qed.

Lemma scripted_partitioner_keeps_vreg_counts ok skeleton entry (this : HGraphBuilder) :
  keeps_vreg_counts (scripted_partitioner ok skeleton entry this).
Proof. intros h. split; reflexivity. Qed.

Lemma scripted_materializer_keeps_vreg_counts ok code locals (this : HGraphBuilder) :
  keeps_vreg_counts (scripted_materializer ok code locals this).
Proof. intros h. split; reflexivity. Qed.

(** A graph without merge points gets no phi, so nothing can be rejected. *)
Lemma placed_phis_without_merges (g : HGraph) (l : SpecStageObjects) :
  forallb (fun b => (List.length (predecessors_ b) <? 2)%nat) (blocks_ g) = true ->
  placed_phis g l = [].
Proof.
  unfold placed_phis. generalize (Z.to_nat (number_of_vregs_ g)) as n.
  induction (blocks_ g) as [|b bs IH]; intros n H; [reflexivity|].
  cbn [forallb] in H. apply andb_true_iff in H as [Hb Hbs].
  cbn [flat_map]. rewrite (IH n Hbs), app_nil_r.
  unfold place_phis. apply Nat.ltb_lt in Hb.
  destruct (Nat.leb_spec 2 (List.length (predecessors_ b))); [lia | reflexivity].
Qed.

Lemma spec_BuildSsa_without_merges (this : HGraphBuilder) (h : Heap SpecStageObjects) :
  forallb (fun b => (List.length (predecessors_ b) <? 2)%nat) (blocks_ (graph_ h)) = true ->
  fst (spec_BuildSsa this h) = kAnalysisSuccess.
Proof.
  intros H. unfold spec_BuildSsa.
  rewrite (placed_phis_without_merges _ _ H). reflexivity.
Qed.

Lemma intrinsic_skeleton_dominators (this : HGraphBuilder) (h : Heap SpecStageObjects) :
  blocks_ (graph_ h) = [] ->
  spec_BuildDominatorTree (snd (spec_block_builder_BuildIntrinsic this h)) =
    (kAnalysisSuccess,
     with_graph {| blocks_ := analyzed_intrinsic_skeleton;
                   entry_block_ := Some 0%nat;
                   number_of_vregs_ := number_of_vregs_ (graph_ h);
                   number_of_in_vregs_ := number_of_in_vregs_ (graph_ h) |} h).
Proof.
  destruct h as [[blocks entry vregs in_vregs] stats objects].
  cbn [graph_ blocks_]. intros ->. reflexivity.
Qed.

Lemma intrinsic_skeleton_materialized (this : HGraphBuilder) (method : ArtMethod)
    (h : Heap SpecStageObjects) :
  blocks_ (graph_ h) = analyzed_intrinsic_skeleton ->
  entry_block_ (graph_ h) = Some 0%nat ->
  map predecessors_
      (blocks_ (graph_ (snd (spec_instruction_builder_BuildIntrinsic this method h)))) =
    [[]; [0]; [1]]%nat.
Proof.
  destruct h as [[blocks entry vregs in_vregs] stats objects].
  cbn [graph_ blocks_ entry_block_]. intros -> ->. reflexivity.
Qed.

(** ** The intrinsic skeleton *)

Section IntrinsicSkeleton.
Variables partition materialize :
  HGraphBuilder -> Heap SpecStageObjects -> bool * Heap SpecStageObjects.
Variable this : HGraphBuilder.
Variable method : ArtMethod.
Variable graph : HGraph.
Variable stats : option OptimizingCompilerStats.

(** C5.  For a non-static method without code item whose shorty is [III]
    (signature (II)I), [BuildIntrinsicGraph] leaves a graph of 5 vregs (2 for
    the return value, 2 for the arguments, 1 for the receiver), 3 of them
    incoming, and, called on a graph without blocks as its [DCHECK] asks, a
    graph of three blocks: the entry, the body and the exit, linked in this
    order. *)
Theorem BuildIntrinsicGraph_II_I :
  HasCodeItem (code_item_accessor_ this) = false ->
  GetShorty (dex_compilation_unit_ this) = "III"%string ->
  IsStatic (dex_compilation_unit_ this) = false ->
  let C := spec_collaborators partition materialize in
  let built :=
    graph_ (heap_ (snd (BuildIntrinsicGraph C this method
                          (initial_state C this graph stats)))) in
  number_of_vregs_ built = 5 /\
  number_of_in_vregs_ built = 3 /\
  (blocks_ graph = [] ->
   map block_id_ (blocks_ built) = [0; 1; 2]%nat /\
   entry_block_ built = Some 0%nat /\
   map predecessors_ (blocks_ built) = [[]; [0]; [1]]%nat /\
   map successors_ (blocks_ built) = [[1]; [2]; []]%nat).
Proof.
  intros Hcode Hshorty Hstatic C built. subst built.
  rewrite BuildIntrinsicGraph_run. cbn [snd heap_].
  change (BuildSsa C this) with (spec_BuildSsa this).
  change (instruction_builder_BuildIntrinsic C this method)
    with (spec_instruction_builder_BuildIntrinsic this method).
  change (BuildDominatorTree C) with spec_BuildDominatorTree.
  change (block_builder_BuildIntrinsic C this)
    with (spec_block_builder_BuildIntrinsic this).
  change (StageObjects C) with SpecStageObjects in *.
  assert (Hin : num_arg_vregs this = 3).
  { unfold num_arg_vregs. rewrite Hshorty, Hstatic. reflexivity. }
  split; [|split].
  - rewrite (proj1 (spec_BuildSsa_keeps_vreg_counts this _)).
    rewrite (proj1 (spec_materializer_keeps_vreg_counts this method _)).
    rewrite (proj1 (spec_BuildDominatorTree_keeps_vreg_counts _)).
    rewrite (proj1 (spec_BuildIntrinsic_keeps_vreg_counts this _)).
    unfold after_intrinsic_setters.
    cbn [on_graph snd graph_ SetNumberOfVRegs SetNumberOfInVRegs number_of_vregs_].
    rewrite Hin. reflexivity.
  - rewrite (proj2 (spec_BuildSsa_keeps_vreg_counts this _)).
    rewrite (proj2 (spec_materializer_keeps_vreg_counts this method _)).
    rewrite (proj2 (spec_BuildDominatorTree_keeps_vreg_counts _)).
    rewrite (proj2 (spec_BuildIntrinsic_keeps_vreg_counts this _)).
    unfold after_intrinsic_setters.
    cbn [on_graph snd graph_ SetNumberOfVRegs SetNumberOfInVRegs number_of_in_vregs_].
    rewrite Hin. reflexivity.
  - intros Hblocks.
    destruct this as [accessor [index static shorty] code_generator return_type].
    destruct graph as [blocks entry vregs in_vregs].
    cbn in Hcode, Hshorty, Hstatic, Hblocks. subst shorty static blocks.
    destruct return_type; repeat split; vm_compute; reflexivity.
Qed.

(** C10.  An intrinsic build cannot fail.  On a call that meets the
    precondition (no code item, no blocks yet), the dominator analysis and
    the SSA finalizer both answer [kAnalysisSuccess] on the three-block
    skeleton, so neither [DCHECK] fires, and the function returns nothing:
    there is no result code to report a failure with. *)
Theorem BuildIntrinsicGraph_infallible :
  HasCodeItem (code_item_accessor_ this) = false ->
  blocks_ graph = [] ->
  let C := spec_collaborators partition materialize in
  let run := BuildIntrinsicGraph C this method (initial_state C this graph stats) in
  fst run = tt /\
  failed_dchecks_ (snd run) = [] /\
  exists vregs in_vregs,
    calls_ (snd run) =
      [CallSetNumberOfVRegs vregs; CallSetNumberOfInVRegs in_vregs;
       CallBlockBuilderBuildIntrinsic;
       CallBuildDominatorTree kAnalysisSuccess;
       CallInstructionBuilderBuildIntrinsic method;
       CallBuildSsa kAnalysisSuccess].
Proof.
  intros Hcode Hblocks C run. subst run.
  rewrite BuildIntrinsicGraph_run. cbn [fst snd calls_ failed_dchecks_].
  unfold BuildIntrinsicGraph_precondition_failures. rewrite Hcode, Hblocks.
  set (h0 := after_intrinsic_setters C this (heap_ (initial_state C this graph stats))).
  assert (H0 : blocks_ (graph_ h0) = []) by exact Hblocks.
  change (block_builder_BuildIntrinsic C this h0)
    with (spec_block_builder_BuildIntrinsic this h0).
  change (BuildDominatorTree C) with spec_BuildDominatorTree.
  change (instruction_builder_BuildIntrinsic C this method)
    with (spec_instruction_builder_BuildIntrinsic this method).
  change (BuildSsa C this) with (spec_BuildSsa this).
  change (StageObjects C) with SpecStageObjects in *.
  rewrite (intrinsic_skeleton_dominators this h0 H0). cbn [fst snd].
  rewrite spec_BuildSsa_without_merges.
  - repeat split. do 2 eexists. reflexivity.
  - set (h2 := with_graph _ h0).
    pose proof (intrinsic_skeleton_materialized this method h2 eq_refl eq_refl) as Hpreds.
    revert Hpreds.
    generalize (blocks_ (graph_ (snd (spec_instruction_builder_BuildIntrinsic
                                        this method h2)))) as blocks.
    intros blocks Hpreds.
    replace (forallb (fun b => (List.length (predecessors_ b) <? 2)%nat) blocks)
      with (forallb (fun p => (List.length p <? 2)%nat) (map predecessors_ blocks)).
    + rewrite Hpreds. reflexivity.
    + clear. induction blocks as [|b bs IH]; [reflexivity|].
      cbn [map forallb]. now rewrite IH.
Qed.
End IntrinsicSkeleton.

(** ** Type conflicts at a merge *)

Lemma ResultType_eqb_eq (a b : ResultType) : ResultType_eqb a b = true -> a = b.
Proof. destruct a, b; simpl; congruence. Qed.

Lemma ValueRef_eqb_eq (a b : ValueRef) : ValueRef_eqb a b = true -> a = b.
Proof.
  destruct a as [i s|b1 v1], b as [j t|b2 v2]; simpl; try discriminate.
  - intros H. apply andb_true_iff in H as [Hid Htype].
    apply Nat.eqb_eq in Hid. apply ResultType_eqb_eq in Htype. congruence.
  - intros H. apply andb_true_iff in H as [Hb Hv].
    apply Nat.eqb_eq in Hb. apply Nat.eqb_eq in Hv. congruence.
Qed.

Lemma all_same_In (xs : list ValueRef) (a b : ValueRef) :
  all_same xs = true -> In a xs -> In b xs -> a = b.
Proof.
  destruct xs as [|x rest]; [intros _ []|].
  cbn [all_same]. intros Hall Ha Hb.
  assert (Hx : forall y, In y (x :: rest) -> x = y).
  { intros y [<-|Hy]; [reflexivity|].
    apply ValueRef_eqb_eq. rewrite forallb_forall in Hall. now apply Hall. }
  rewrite <- (Hx a Ha), <- (Hx b Hb). reflexivity.
Qed.

Lemma two_members_length {A} (l : list A) (a b : A) :
  In a l -> In b l -> a <> b -> (2 <= List.length l)%nat.
Proof.
  destruct l as [|x [|y rest]]; cbn [List.length]; intros Ha Hb Hab.
  - destruct Ha.
  - destruct Ha as [<-|[]], Hb as [<-|[]]. contradiction.
  - lia.
Qed.

Lemma type_of_defined_value (fuel : nat) (g : HGraph) (l : SpecStageObjects)
    (id : nat) (declared : ResultType) :
  type_of_value fuel g l (Defined id declared) = resolved_type g id declared.
Proof. destruct fuel; reflexivity. Qed.

Section MixedPhi.
Variable this : HGraphBuilder.
Variable h : Heap SpecStageObjects.
Variable b : HBasicBlock.
Variables p1 p2 vreg id1 id2 : nat.
Variables t1 t2 : ResultType.

Hypothesis Hblock : In b (blocks_ (graph_ h)).
Hypothesis Hp1 : In p1 (predecessors_ b).
Hypothesis Hp2 : In p2 (predecessors_ b).
Hypothesis Hvreg : (vreg < Z.to_nat (number_of_vregs_ (graph_ h)))%nat.
Hypothesis Hvalue1 : exit_value (stage_objects_ h) p1 vreg = Defined id1 t1.
Hypothesis Hvalue2 : exit_value (stage_objects_ h) p2 vreg = Defined id2 t2.
Hypothesis Hreference : resolved_type (graph_ h) id1 t1 = kReference.
Hypothesis Hprimitive : is_primitive (resolved_type (graph_ h) id2 t2) = true.

Lemma mixed_inputs_differ : all_same (incoming (stage_objects_ h) b vreg) = false.
Proof.
  destruct (all_same (incoming (stage_objects_ h) b vreg)) eqn:Hsame; [exfalso|reflexivity].
  assert (Heq : Defined id1 t1 = Defined id2 t2).
  { apply (all_same_In (incoming (stage_objects_ h) b vreg)); [exact Hsame| |];
      unfold incoming;
      [rewrite <- Hvalue1 | rewrite <- Hvalue2];
      apply (in_map (fun p => exit_value (stage_objects_ h) p vreg)); assumption. }
  injection Heq as -> ->. rewrite Hreference in Hprimitive. discriminate.
Qed.

Lemma mixed_predecessors_differ : p1 <> p2.
Proof.
  intros ->. rewrite Hvalue1 in Hvalue2. injection Hvalue2 as -> ->.
  rewrite Hreference in Hprimitive. discriminate.
Qed.

Lemma mixed_phi_placed :
  In {| reg_number_ := vreg; phi_inputs_ := incoming (stage_objects_ h) b vreg; phi_type_ := kNotYetTyped |}
     (place_phis (stage_objects_ h) (Z.to_nat (number_of_vregs_ (graph_ h))) b).
Proof.
  unfold place_phis.
  pose proof (two_members_length _ _ _ Hp1 Hp2 mixed_predecessors_differ) as Hlen.
  destruct (Nat.leb_spec 2 (List.length (predecessors_ b))); [|lia].
  apply in_flat_map. exists vreg. split.
  - apply in_seq. lia.
  - rewrite mixed_inputs_differ. left. reflexivity.
Qed.

(** The SSA finalizer rejects a graph in which a reference and a primitive
    meet in one vreg. *)
Lemma spec_BuildSsa_rejects_mixed_phi :
  spec_BuildSsa this h = (kAnalysisInvalidBytecode, h).
Proof.
  unfold spec_BuildSsa.
  replace (existsb _ (placed_phis (graph_ h) (stage_objects_ h))) with true;
    [reflexivity|].
  symmetry. apply existsb_exists.
  exists (block_id_ b,
          typed_phi (graph_ h) (stage_objects_ h)
            {| reg_number_ := vreg; phi_inputs_ := incoming (stage_objects_ h) b vreg; phi_type_ := kNotYetTyped |}).
  split.
  - unfold placed_phis. apply in_flat_map. exists b. split; [exact Hblock|].
    apply (in_map (fun phi => (block_id_ b, typed_phi (graph_ h) (stage_objects_ h) phi))).
    exact mixed_phi_placed.
  - cbn [snd]. unfold mixes_reference_and_primitive, input_types, typed_phi.
    cbn [phi_inputs_]. apply andb_true_iff. split; apply existsb_exists.
    + exists kReference. split; [|reflexivity].
      rewrite <- Hreference.
      rewrite <- (type_of_defined_value (List.length (blocks_ (graph_ h))) (graph_ h)
                    (stage_objects_ h)).
      apply in_map. unfold incoming. rewrite <- Hvalue1.
      apply (in_map (fun p => exit_value (stage_objects_ h) p vreg)). exact Hp1.
    + exists (resolved_type (graph_ h) id2 t2). split; [|exact Hprimitive].
      rewrite <- (type_of_defined_value (List.length (blocks_ (graph_ h))) (graph_ h)
                    (stage_objects_ h)).
      apply in_map. unfold incoming. rewrite <- Hvalue2.
      apply (in_map (fun p => exit_value (stage_objects_ h) p vreg)). exact Hp2.
Qed.
End MixedPhi.

Section TypeConflict.
Variables partition materialize :
  HGraphBuilder -> Heap SpecStageObjects -> bool * Heap SpecStageObjects.
Variable this : HGraphBuilder.
Variable graph : HGraph.
Variable stats : option OptimizingCompilerStats.

(** C4.  Take a method that gets as far as the SSA finalizer: the partitioner
    succeeds, the method is not skipped, the dominator analysis and the
    materializer succeed.  If two predecessors [p1] and [p2] of a block leave
    in the same vreg a value that resolves to a reference and a value that
    resolves to a primitive, [BuildGraph] answers
    [kAnalysisInvalidBytecode]: the SSA finalizer reports the conflict and
    leaves the graph as it found it. *)
Theorem BuildGraph_rejects_reference_primitive_merge
    (h1 h3 h4 : Heap SpecStageObjects) (b : HBasicBlock)
    (p1 p2 vreg id1 id2 : nat) (t1 t2 : ResultType) :
  let C := spec_collaborators partition materialize in
  let start := initial_state C this graph stats in
  block_builder_Build C this (after_setters C this (heap_ start)) = (true, h1) ->
  SkipCompilation C this (state_of_heap h1) = (false, state_of_heap h1) ->
  BuildDominatorTree C h1 = (kAnalysisSuccess, h3) ->
  instruction_builder_Build C this h3 = (true, h4) ->
  In b (blocks_ (graph_ h4)) ->
  In p1 (predecessors_ b) ->
  In p2 (predecessors_ b) ->
  (vreg < Z.to_nat (number_of_vregs_ (graph_ h4)))%nat ->
  exit_value (stage_objects_ h4) p1 vreg = Defined id1 t1 ->
  exit_value (stage_objects_ h4) p2 vreg = Defined id2 t2 ->
  resolved_type (graph_ h4) id1 t1 = kReference ->
  is_primitive (resolved_type (graph_ h4) id2 t2) = true ->
  fst (BuildGraph C this start) = kAnalysisInvalidBytecode /\
  In (CallBuildSsa kAnalysisInvalidBytecode) (calls_ (snd (BuildGraph C this start))) /\
  heap_ (snd (BuildGraph C this start)) = h4.
Proof.
  intros C start H1 Hskip H3 H4 Hb Hp1 Hp2 Hvreg Hv1 Hv2 Href Hprim.
  pose proof (spec_BuildSsa_rejects_mixed_phi this h4 b p1 p2 vreg id1 id2 t1 t2
                Hb Hp1 Hp2 Hvreg Hv1 Hv2 Href Hprim) as Hssa.
  rewrite SkipCompilation_run in Hskip. injection Hskip as Hs He.
  destruct (BuildGraph_run C this graph stats) as (result & h & calls & Hrun & Hpath).
  fold start in Hrun, Hpath. rewrite Hrun. cbn [fst snd calls_ heap_].
  change (StageObjects C) with SpecStageObjects in *.
  unfold state_of_heap in He. cbn [heap_] in He.
  inversion Hpath as [x X1|x X1 Xs|x r x3 X1 Xs X3 Xr|x x3 x4 X1 Xs X3 X4
                      |x x3 x4 r x5 X1 Xs X3 X4 X5]; subst.
  - rewrite H1 in X1. discriminate.
  - congruence.
  - rewrite H1 in X1. injection X1 as <-.
    rewrite He, H3 in X3. injection X3 as <- <-. contradiction.
  - rewrite H1 in X1. injection X1 as <-.
    rewrite He, H3 in X3. injection X3 as <-.
    rewrite H4 in X4. discriminate.
  - rewrite H1 in X1. injection X1 as <-.
    rewrite He, H3 in X3. injection X3 as <-.
    rewrite H4 in X4. injection X4 as <-.
    change (BuildSsa C this h4) with (spec_BuildSsa this h4) in X5.
    rewrite Hssa in X5. injection X5 as <- <-.
    repeat split. unfold setter_calls. simpl. tauto.
Qed.
End TypeConflict.

(* ===================================================================== *)
(** * The theorems on the synthetic inputs *)
(* ===================================================================== *)

(** A method above the threshold is skipped, a small one goes through all
    four stages, and no [DCHECK] fires. *)
Lemma BuildGraph_result_code_witness :
  fst (block_builder_Build accepting_stages (method_of_size 10001 false)
         (after_setters accepting_stages (method_of_size 10001 false)
            (heap_ (initial_state accepting_stages (method_of_size 10001 false)
                      empty_graph some_stats)))) = true /\
  fst (BuildGraph accepting_stages (method_of_size 10001 false)
         (initial_state accepting_stages (method_of_size 10001 false)
            empty_graph some_stats)) = kAnalysisSkipped /\
  fst (BuildGraph accepting_stages (method_of_size 10 false)
         (initial_state accepting_stages (method_of_size 10 false)
            empty_graph some_stats)) = kAnalysisSuccess /\
  failed_dchecks_
    (snd (BuildGraph accepting_stages (method_of_size 10 false)
            (initial_state accepting_stages (method_of_size 10 false)
               empty_graph some_stats))) = [].
Proof.
  pose proof (BuildGraph_result_code accepting_stages (method_of_size 10001 false)
                empty_graph some_stats) as Hhuge.
  pose proof (BuildGraph_result_code accepting_stages (method_of_size 10 false)
                empty_graph some_stats) as Hsmall.
  cbv zeta in Hhuge, Hsmall.
  destruct Hhuge as (_ & _ & Hskipped & _).
  destruct Hsmall as (_ & _ & _ & _ & _ & Hssa & Hdchecks).
  split; [reflexivity|]. split; [|split].
  - apply Hskipped; reflexivity.
  - rewrite Hssa; reflexivity.
  - apply Hdchecks; reflexivity.
Defined.

(** The stages of the specification never skip; on the skipped method no later
    stage is in the log. *)
Lemma BuildGraph_skip_decision_placement_witness :
  (forall h, fst (BuildDominatorTree accepting_stages h) <> kAnalysisSkipped) /\
  (forall h, fst (BuildSsa accepting_stages (method_of_size 10001 false) h)
             <> kAnalysisSkipped) /\
  fst (BuildGraph accepting_stages (method_of_size 10001 false)
         (initial_state accepting_stages (method_of_size 10001 false)
            empty_graph some_stats)) = kAnalysisSkipped /\
  existsb is_later_stage
    (calls_ (snd (BuildGraph accepting_stages (method_of_size 10001 false)
                    (initial_state accepting_stages (method_of_size 10001 false)
                       empty_graph some_stats)))) = false.
Proof.
  split; [exact spec_BuildDominatorTree_never_skips|].
  split; [exact (spec_BuildSsa_never_skips (method_of_size 10001 false))|].
  split; [reflexivity|].
  apply (BuildGraph_skip_decision_placement accepting_stages (method_of_size 10001 false)
           empty_graph some_stats spec_BuildDominatorTree_never_skips
           (spec_BuildSsa_never_skips (method_of_size 10001 false))).
  reflexivity.
Defined.

(** A rejected method: three calls, then [kAnalysisInvalidBytecode]. *)
Lemma BuildGraph_partitioner_failure_witness :
  fst (block_builder_Build rejecting_stages (method_of_size 10 false)
         (after_setters rejecting_stages (method_of_size 10 false)
            (heap_ (initial_state rejecting_stages (method_of_size 10 false)
                      empty_graph some_stats)))) = false /\
  fst (BuildGraph rejecting_stages (method_of_size 10 false)
         (initial_state rejecting_stages (method_of_size 10 false)
            empty_graph some_stats)) = kAnalysisInvalidBytecode /\
  calls_ (snd (BuildGraph rejecting_stages (method_of_size 10 false)
                 (initial_state rejecting_stages (method_of_size 10 false)
                    empty_graph some_stats))) =
    [CallSetNumberOfVRegs 1; CallSetNumberOfInVRegs 1; CallBlockBuilderBuild false].
Proof.
  split; [reflexivity|].
  destruct (BuildGraph_partitioner_failure rejecting_stages (method_of_size 10 false)
              empty_graph some_stats
              (snd (block_builder_Build rejecting_stages (method_of_size 10 false)
                      (after_setters rejecting_stages (method_of_size 10 false)
                         (heap_ (initial_state rejecting_stages (method_of_size 10 false)
                                   empty_graph some_stats)))))
              eq_refl) as [Hrun _].
  rewrite Hrun. split; reflexivity.
Defined.

(** The if-then-else whose branches leave an object and an integer in v0. *)
Lemma BuildGraph_rejects_reference_primitive_merge_witness :
  In conflict_merge_block (blocks_ (graph_ conflict_materialized)) /\
  exit_value (stage_objects_ conflict_materialized) 1 0 = Defined 1 kReference /\
  exit_value (stage_objects_ conflict_materialized) 2 0 = Defined 3 kIntegerLike /\
  fst (BuildGraph conflicting_stages conflict_method conflict_start)
    = kAnalysisInvalidBytecode /\
  In (CallBuildSsa kAnalysisInvalidBytecode)
     (calls_ (snd (BuildGraph conflicting_stages conflict_method conflict_start))) /\
  heap_ (snd (BuildGraph conflicting_stages conflict_method conflict_start))
    = conflict_materialized.
Proof.
  assert (Hblock : In conflict_merge_block (blocks_ (graph_ conflict_materialized))).
  { vm_compute. right. right. right. left. reflexivity. }
  split; [exact Hblock|]. split; [reflexivity|]. split; [reflexivity|].
  apply (BuildGraph_rejects_reference_primitive_merge
           (scripted_partitioner true diamond 0)
           (scripted_materializer true diamond_code diamond_locals)
           conflict_method empty_graph some_stats
           conflict_partitioned conflict_analyzed conflict_materialized
           conflict_merge_block 1 2 0 1 3 kReference kIntegerLike).
  - reflexivity.
  - reflexivity.
  - reflexivity.
  - reflexivity.
  - exact Hblock.
  - left. reflexivity.
  - right. left. reflexivity.
  - apply Nat.ltb_lt. reflexivity.
  - reflexivity.
  - reflexivity.
  - reflexivity.
  - reflexivity.
Defined.

(** The intrinsic of signature (II)I, built on the empty graph. *)
Lemma BuildIntrinsicGraph_II_I_witness :
  HasCodeItem (code_item_accessor_ (intrinsic_method "III" false)) = false /\
  number_of_vregs_
    (graph_ (heap_ (snd (BuildIntrinsicGraph rejecting_stages (intrinsic_method "III" false)
                           (ArtMethodHandle 1)
                           (initial_state rejecting_stages (intrinsic_method "III" false)
                              empty_graph None))))) = 5 /\
  number_of_in_vregs_
    (graph_ (heap_ (snd (BuildIntrinsicGraph rejecting_stages (intrinsic_method "III" false)
                           (ArtMethodHandle 1)
                           (initial_state rejecting_stages (intrinsic_method "III" false)
                              empty_graph None))))) = 3 /\
  List.length
    (blocks_
       (graph_ (heap_ (snd (BuildIntrinsicGraph rejecting_stages
                              (intrinsic_method "III" false) (ArtMethodHandle 1)
                              (initial_state rejecting_stages (intrinsic_method "III" false)
                                 empty_graph None)))))) = 3%nat.
Proof.
  destruct (BuildIntrinsicGraph_II_I (scripted_partitioner false [] 0)
              (scripted_materializer true [] [])
              (intrinsic_method "III" false) (ArtMethodHandle 1) empty_graph None
              eq_refl eq_refl eq_refl) as (Hvregs & Hin & Hblocks).
  destruct (Hblocks eq_refl) as (Hids & _).
  split; [reflexivity|]. split; [exact Hvregs|]. split; [exact Hin|].
  rewrite <- (length_map block_id_).
  change rejecting_stages
    with (spec_collaborators (scripted_partitioner false [] 0)
                             (scripted_materializer true [] [])).
  rewrite Hids. reflexivity.
Defined.




(** C7, as stated, fails: a method one code unit above the threshold whose
    bytecode the partitioner rejects is reported as invalid, not as skipped,
    although there is a code generator and the filter is not [kEverything]. *)
Lemma huge_method_not_always_skipped :
  ~ (forall (C : Collaborators) (this : HGraphBuilder) (graph : HGraph)
            (stats : option OptimizingCompilerStats) (code_generator : CodeGenerator),
        HasCodeItem (code_item_accessor_ this) = true ->
        code_generator_ this = Some code_generator ->
        GetCompilerFilter (GetCompilerOptions code_generator) <> kEverything ->
        InsnsSizeInCodeUnits (code_item_accessor_ this) =
          huge_method_threshold_ (GetCompilerOptions code_generator) + 1 ->
        fst (BuildGraph C this (initial_state C this graph stats)) = kAnalysisSkipped).
Proof.
  intros Hclaim.
  specialize (Hclaim rejecting_stages (method_of_size 10001 false) empty_graph some_stats
                {| GetCompilerOptions :=
                     {| GetCompilerFilter := kOtherFilter 0;
                        huge_method_threshold_ := 10000 |} |}
                eq_refl eq_refl).
  assert (Hfilter : kOtherFilter 0 <> kEverything) by discriminate.
  specialize (Hclaim Hfilter eq_refl).
  vm_compute in Hclaim. discriminate Hclaim.
Qed.

(** At 10000 code units the method is not skipped, at 10001 it is. *)
Lemma BuildGraph_huge_method_boundary_witness :
  code_generator_ (method_of_size 10001 false) =
    Some {| GetCompilerOptions :=
              {| GetCompilerFilter := kOtherFilter 0; huge_method_threshold_ := 10000 |} |} /\
  kOtherFilter 0 <> kEverything /\
  fst (SkipCompilation accepting_stages (method_of_size 10000 false)
         (initial_state accepting_stages (method_of_size 10000 false)
            empty_graph some_stats)) = false /\
  fst (BuildGraph accepting_stages (method_of_size 10001 false)
         (initial_state accepting_stages (method_of_size 10001 false)
            empty_graph some_stats)) = kAnalysisSkipped.
Proof.
  assert (Hfilter : kOtherFilter 0 <> kEverything) by discriminate.
  split; [reflexivity|]. split; [exact Hfilter|].
  pose proof (BuildGraph_huge_method_boundary accepting_stages (method_of_size 10000 false)
                empty_graph some_stats _ eq_refl Hfilter) as Hat.
  pose proof (BuildGraph_huge_method_boundary accepting_stages (method_of_size 10001 false)
                empty_graph some_stats _ eq_refl Hfilter) as Habove.
  cbv zeta in Hat, Habove.
  destruct Hat as [Hat _]. destruct Habove as [_ Habove].
  destruct (Hat eq_refl) as [Hnot _]. destruct (Habove eq_refl) as [_ Hskipped].
  split.
  - rewrite Hnot. reflexivity.
  - apply Hskipped. reflexivity.
Defined.

(** The counts of the code item are on the graph after a rejected and after a
    skipped build. *)
Lemma BuildGraph_vreg_counts_witness :
  number_of_vregs_
    (graph_ (heap_ (snd (BuildGraph rejecting_stages (method_of_size 10 false)
                           (initial_state rejecting_stages (method_of_size 10 false)
                              empty_graph some_stats))))) = 1 /\
  number_of_in_vregs_
    (graph_ (heap_ (snd (BuildGraph accepting_stages (method_of_size 10001 false)
                           (initial_state accepting_stages (method_of_size 10001 false)
                              empty_graph some_stats))))) = 1.
Proof.
  split.
  - apply (BuildGraph_vreg_counts rejecting_stages (method_of_size 10 false)
             empty_graph some_stats
             (scripted_partitioner_keeps_vreg_counts false [] 0%nat _)
             spec_BuildDominatorTree_keeps_vreg_counts
             (scripted_materializer_keeps_vreg_counts true [] [] _)
             (spec_BuildSsa_keeps_vreg_counts _)).
  - apply (BuildGraph_vreg_counts accepting_stages (method_of_size 10001 false)
             empty_graph some_stats
             (scripted_partitioner_keeps_vreg_counts true diamond 0%nat _)
             spec_BuildDominatorTree_keeps_vreg_counts
             (scripted_materializer_keeps_vreg_counts true agreeing_code agreeing_locals _)
             (spec_BuildSsa_keeps_vreg_counts _)).
Defined.

(** A method of 20000 code units is not skipped without a code generator, nor
    at [kEverything]. *)
Lemma SkipCompilation_guards_witness :
  code_generator_ (method_under_test 20000) = None /\
  SkipCompilation accepting_stages (method_under_test 20000)
    (initial_state accepting_stages (method_under_test 20000) empty_graph some_stats) =
    (false, initial_state accepting_stages (method_under_test 20000) empty_graph some_stats) /\
  SkipCompilation accepting_stages (method_of_size 20000 true)
    (initial_state accepting_stages (method_of_size 20000 true) empty_graph some_stats) =
    (false, initial_state accepting_stages (method_of_size 20000 true) empty_graph some_stats).
Proof.
  split; [reflexivity|]. split.
  - apply (SkipCompilation_guards accepting_stages (method_under_test 20000)).
    left. reflexivity.
  - apply (SkipCompilation_guards accepting_stages (method_of_size 20000 true)).
    right. eexists. split; reflexivity.
Defined.

(** No [DCHECK] fires for the intrinsic of signature (JIL)D. *)
Lemma BuildIntrinsicGraph_infallible_witness :
  HasCodeItem (code_item_accessor_ (intrinsic_method "DJIL" true)) = false /\
  blocks_ empty_graph = [] /\
  failed_dchecks_
    (snd (BuildIntrinsicGraph rejecting_stages (intrinsic_method "DJIL" true)
            (ArtMethodHandle 1)
            (initial_state rejecting_stages (intrinsic_method "DJIL" true)
               empty_graph None))) = [].
Proof.
  split; [reflexivity|]. split; [reflexivity|].
  apply (BuildIntrinsicGraph_infallible (scripted_partitioner false [] 0)
           (scripted_materializer true [] [])
           (intrinsic_method "DJIL" true) (ArtMethodHandle 1) empty_graph None
           eq_refl eq_refl).
Defined.

(* ===================================================================== *)
(** * More about builder.cc *)
(* ===================================================================== *)

(** ** What [SkipCompilation] reads and writes *)

(** Of the graph, the stage objects and the statistics, [SkipCompilation]
    (lines 66 to 88) changes one counter at most: the graph and the stage
    objects are as before, a null statistics pointer stays null, and behind a
    non-null one the counter of [kNotCompiledHugeMethod] goes up by exactly
    one when the answer is true, and no counter moves otherwise. *)
Theorem SkipCompilation_counts_once (C : Collaborators) (this : HGraphBuilder)
    (s : State (StageObjects C)) :
  let run := SkipCompilation C this s in
  graph_ (heap_ (snd run)) = graph_ (heap_ s) /\
  stage_objects_ (heap_ (snd run)) = stage_objects_ (heap_ s) /\
  (compilation_stats_ (heap_ (snd run)) = None <-> compilation_stats_ (heap_ s) = None) /\
  (forall stat,
      counted (compilation_stats_ (heap_ (snd run))) stat =
        (counted (compilation_stats_ (heap_ s)) stat +
         match compilation_stats_ (heap_ s) with
         | Some _ =>
             if fst run && MethodCompilationStat_eqb stat kNotCompiledHugeMethod
             then 1 else 0
         | None => 0
         end)%nat).
Proof.
  intros run. subst run. rewrite SkipCompilation_run. cbn [fst snd heap_].
  unfold skip_effect.
  destruct (skip_decision this) eqn:Hskip;
    cbn [graph_ stage_objects_ compilation_stats_ andb];
    (repeat split; try reflexivity;
     [ destruct (compilation_stats_ (heap_ s)); cbn [MaybeRecordStat]; congruence
     | destruct (compilation_stats_ (heap_ s)); cbn [MaybeRecordStat]; congruence
     | intros stat; destruct (compilation_stats_ (heap_ s)) as [counters|];
       cbn [MaybeRecordStat counted]; unfold RecordStat;
       try destruct (MethodCompilationStat_eqb stat kNotCompiledHugeMethod); lia ]).
Qed.

(** ** The order of the stages in [BuildGraph] *)

Section BuildGraphLog.
Variable C : Collaborators.
Variable this : HGraphBuilder.
Variable graph : HGraph.
Variable stats : option OptimizingCompilerStats.

(** [BuildGraph] (lines 94 to 140) makes its calls in one fixed order, each at
    most once and none left out: the log of a run is the first three to seven
    steps of setter, setter, block builder, skip decision, dominator analysis,
    instruction builder, SSA builder.  Every call but the last let the build
    go on: a stage is only called when all the stages before it succeeded and
    the method was not skipped. *)
Theorem BuildGraph_stage_order :
  let calls := calls_ (snd (BuildGraph C this (initial_state C this graph stats))) in
  map stage_rank calls = seq 0 (List.length calls) /\
  (3 <= List.length calls <= 7)%nat /\
  forallb lets_the_build_go_on (removelast calls) = true.
Proof.
  intros calls. subst calls.
  destruct (BuildGraph_run C this graph stats) as (result & h & calls & Hrun & Hpath).
  rewrite Hrun. cbn [snd calls_].
  inversion Hpath; subst; unfold setter_calls; cbn [app List.length map stage_rank seq];
    (split; [reflexivity|]); (split; [lia|]); reflexivity.
Qed.

(** The result of [BuildGraph] is read off its last call alone: it is
    [kAnalysisInvalidBytecode] after a failed block or instruction builder,
    [kAnalysisSkipped] after a positive skip decision, and the very result of
    the dominator analysis or of the SSA builder otherwise.  [BuildGraph]
    makes up no result code of its own, and it answers [kAnalysisSuccess]
    exactly when the log is complete and the SSA builder answered so. *)
Theorem BuildGraph_result_is_last_outcome :
  let run := BuildGraph C this (initial_state C this graph stats) in
  let calls := calls_ (snd run) in
  fst run = outcome_of_call (last calls (CallSetNumberOfVRegs 0)) /\
  (fst run = kAnalysisSuccess <->
   List.length calls = 7%nat /\
   last calls (CallSetNumberOfVRegs 0) = CallBuildSsa kAnalysisSuccess).
Proof.
  intros run calls. subst calls run.
  destruct (BuildGraph_run C this graph stats) as (result & h & calls & Hrun & Hpath).
  rewrite Hrun. cbn [fst snd calls_].
  inversion Hpath as [h1 H1|h1 H1 Hs|h1 r h3 H1 Hs H3 Hr|h1 h3 h4 H1 Hs H3 H4
                      |h1 h3 h4 r h5 H1 Hs H3 H4 H5]; subst;
    unfold setter_calls; cbn [app List.length last outcome_of_call].
  - split; [reflexivity|]. split; [discriminate | intros [Hlen _]; discriminate Hlen].
  - split; [reflexivity|]. split; [discriminate | intros [Hlen _]; discriminate Hlen].
  - split; [reflexivity|]. split; [contradiction | intros [Hlen _]; discriminate Hlen].
  - split; [reflexivity|]. split; [discriminate | intros [Hlen _]; discriminate Hlen].
  - split; [reflexivity|]. split.
    + intros ->. split; reflexivity.
    + intros [_ Hlast]. injection Hlast as ->. reflexivity.
Qed.

(** When the skip policy fires, [BuildGraph] (lines 116 to 126) hands the
    graph back as the block builder left it: the blocks built for the method
    are still in it, the stage objects are untouched, and of the statistics
    only the counter of [kNotCompiledHugeMethod] has moved, by one. *)
Theorem BuildGraph_skip_keeps_the_skeleton (h1 : Heap (StageObjects C)) :
  block_builder_Build C this
    (after_setters C this (heap_ (initial_state C this graph stats))) = (true, h1) ->
  fst (SkipCompilation C this (state_of_heap h1)) = true ->
  let run := BuildGraph C this (initial_state C this graph stats) in
  fst run = kAnalysisSkipped /\
  graph_ (heap_ (snd run)) = graph_ h1 /\
  stage_objects_ (heap_ (snd run)) = stage_objects_ h1 /\
  compilation_stats_ (heap_ (snd run)) =
    MaybeRecordStat (compilation_stats_ h1) kNotCompiledHugeMethod.
Proof.
  intros Hblocks Hskip run. subst run.
  rewrite SkipCompilation_run in Hskip. cbn [fst] in Hskip.
  destruct (BuildGraph_run C this graph stats) as (result & h & calls & Hrun & Hpath).
  rewrite Hrun. cbn [fst snd heap_].
  inversion Hpath as [x X1|x X1 Xs|x r x3 X1 Xs X3 Xr|x x3 x4 X1 Xs X3 X4
                      |x x3 x4 r x5 X1 Xs X3 X4 X5]; subst;
    rewrite Hblocks in X1; try discriminate X1; try congruence.
  injection X1 as <-. unfold skip_effect. rewrite Hskip. repeat split.
Qed.
End BuildGraphLog.

(** ** The constructor of the unit tests *)

(** A builder made by the second constructor (lines 53 to 64) has no code
    generator, so the huge-method policy never applies to it: whatever the
    size of the method and whatever the stages do, [SkipCompilation] answers
    false and changes nothing, the log of [BuildGraph] holds no positive skip
    decision, and after a successful block builder the dominator analysis is
    always called. *)
Theorem test_builder_is_never_skipped (C : Collaborators)
    (dex_compilation_unit : DexCompilationUnit) (accessor : CodeItemDebugInfoAccessor)
    (return_type : ResultType) (graph : HGraph) :
  let this := new_HGraphBuilder_for_tests dex_compilation_unit accessor return_type in
  let run := BuildGraph C this (initial_state C this graph None) in
  (forall s, SkipCompilation C this s = (false, s)) /\
  ~ In (CallSkipCompilation true) (calls_ (snd run)) /\
  (fst (block_builder_Build C this
          (after_setters C this (heap_ (initial_state C this graph None)))) = true ->
   exists result, In (CallBuildDominatorTree result) (calls_ (snd run))).
Proof.
  intros this run.
  assert (Hs : skip_decision this = false) by reflexivity.
  split; [intros s; reflexivity|].
  subst run.
  destruct (BuildGraph_run C this graph None) as (result & h & calls & Hrun & Hpath).
  rewrite Hrun. cbn [snd calls_].
  assert (Hnot : forall l,
             (forall c, In c l -> c <> CallSkipCompilation true) ->
             ~ In (CallSkipCompilation true) l).
  { intros l Hl Hin. exact (Hl _ Hin eq_refl). }
  inversion Hpath as [h1 H1|h1 H1 Hs'|h1 r h3 H1 Hs' H3 Hr|h1 h3 h4 H1 Hs' H3 H4
                      |h1 h3 h4 r h5 H1 Hs' H3 H4 H5]; subst;
    unfold setter_calls; cbn [app].
  - split.
    + apply Hnot. intros c [<-|[<-|[<-|[]]]]; discriminate.
    + intros Hok. rewrite H1 in Hok. discriminate Hok.
  - rewrite Hs in Hs'. discriminate Hs'.
  - split.
    + apply Hnot. intros c [<-|[<-|[<-|[<-|[<-|[]]]]]]; discriminate.
    + intros _. exists result. cbn [In]. tauto.
  - split.
    + apply Hnot. intros c [<-|[<-|[<-|[<-|[<-|[<-|[]]]]]]]; discriminate.
    + intros _. exists kAnalysisSuccess. cbn [In]. tauto.
  - split.
    + apply Hnot. intros c [<-|[<-|[<-|[<-|[<-|[<-|[<-|[]]]]]]]]; discriminate.
    + intros _. exists kAnalysisSuccess. cbn [In]. tauto.
Qed.

(** ** The vreg layout of an intrinsic *)

Lemma list_ascii_of_string_app (a b : string) :
  list_ascii_of_string (a ++ b) = list_ascii_of_string a ++ list_ascii_of_string b.
Proof. induction a as [|c a IH]; cbn; [reflexivity | now rewrite IH]. Qed.

Lemma no_wide_argument (l : list ascii) :
  List.length (filter is_wide l) = O <-> forallb (fun c => negb (is_wide c)) l = true.
Proof.
  induction l as [|c l IH]; cbn [filter forallb]; [tauto|].
  destruct (is_wide c); cbn [negb andb List.length]; [split; discriminate | exact IH].
Qed.

Lemma only_wide_arguments (l : list ascii) :
  List.length (filter is_wide l) = List.length l <-> forallb is_wide l = true.
Proof.
  induction l as [|c l IH]; cbn [filter forallb]; [tauto|].
  destruct (is_wide c); cbn [andb List.length].
  - rewrite <- IH. split; [intros [= H]; exact H | intros ->; reflexivity].
  - split; [|discriminate]. intros H.
    pose proof (filter_length_le is_wide l). lia.
Qed.

(** For an intrinsic of at most 32766 arguments, whose layout the 16-bit vreg
    counts hold whatever the types of the arguments, [BuildIntrinsicGraph]
    (lines 147 to 158) declares two vregs more than come in, and the incoming
    count lies between the number of arguments and twice that number, plus
    one for the receiver of a non-static method.  The lower bound is met
    exactly when no argument is wide ([J] or [D]), the upper one exactly when
    all are. *)
Theorem BuildIntrinsicGraph_in_vregs_bounds (C : Collaborators) (this : HGraphBuilder)
    (method : ArtMethod) (graph : HGraph) (stats : option OptimizingCompilerStats)
    (return_type : ascii) (arguments : string) :
  GetShorty (dex_compilation_unit_ this) = String return_type arguments ->
  Z.of_nat (String.length arguments) <= 32766 ->
  let n := Z.of_nat (String.length arguments) in
  let receiver := if IsStatic (dex_compilation_unit_ this) then 0 else 1 in
  exists vregs in_vregs stages,
    calls_ (snd (BuildIntrinsicGraph C this method (initial_state C this graph stats))) =
      CallSetNumberOfVRegs vregs :: CallSetNumberOfInVRegs in_vregs :: stages /\
    vregs = in_vregs + 2 /\
    n + receiver <= in_vregs <= 2 * n + receiver /\
    (in_vregs = n + receiver <->
     forallb (fun c => negb (is_wide c)) (list_ascii_of_string arguments) = true) /\
    (in_vregs = 2 * n + receiver <->
     forallb is_wide (list_ascii_of_string arguments) = true).
Proof.
  intros Hshorty Hlen n receiver.
  assert (Hlen' : Z.of_nat (String.length arguments) < 2 ^ 32).
  { change (2 ^ 32) with 4294967296. lia. }
  destruct (num_arg_vregs_value this return_type arguments Hshorty Hlen') as [Hin Htotal].
  fold n receiver in Hin.
  set (wide := List.length (filter is_wide (list_ascii_of_string arguments))) in *.
  assert (Hwide : (wide <= List.length (list_ascii_of_string arguments))%nat)
    by apply filter_length_le.
  assert (Hn : n = Z.of_nat (List.length (list_ascii_of_string arguments))).
  { unfold n. now rewrite length_list_ascii_of_string. }
  assert (Hreceiver : 0 <= receiver <= 1).
  { subst receiver. destruct (IsStatic _); lia. }
  rewrite BuildIntrinsicGraph_run. cbn [snd calls_].
  do 3 eexists. split; [reflexivity|]. rewrite Htotal.
  rewrite !to_uint16_small by (fold n in Hlen; lia).
  rewrite Hin.
  split; [lia|]. split; [lia|]. split.
  - rewrite <- no_wide_argument. fold wide. lia.
  - rewrite <- only_wide_arguments. fold wide. lia.
Qed.

(** The layout is built up argument by argument (lines 150 to 153): a shorty
    with one more argument at its end takes one more incoming vreg, two if the
    new argument is wide, whatever the two return types are. *)
Theorem num_arg_vregs_one_more_argument (this longer : HGraphBuilder)
    (return_type return_type' : ascii) (arguments : string) (c : ascii) :
  GetShorty (dex_compilation_unit_ this) = String return_type arguments ->
  GetShorty (dex_compilation_unit_ longer) =
    String return_type' (arguments ++ String c EmptyString) ->
  IsStatic (dex_compilation_unit_ longer) = IsStatic (dex_compilation_unit_ this) ->
  Z.of_nat (String.length arguments) + 1 < 2 ^ 32 ->
  num_arg_vregs longer = num_arg_vregs this + (if is_wide c then 2 else 1).
Proof.
  intros Hshorty Hlonger Hstatic Hlen.
  assert (Hlength : String.length (arguments ++ String c EmptyString)
                    = S (String.length arguments)).
  { rewrite <- !length_list_ascii_of_string, list_ascii_of_string_app, length_app.
    cbn. lia. }
  destruct (num_arg_vregs_value this return_type arguments Hshorty) as [-> _]; [lia|].
  destruct (num_arg_vregs_value longer return_type' _ Hlonger) as [-> _].
  { rewrite Hlength, Nat2Z.inj_succ. lia. }
  rewrite Hlength, Hstatic, list_ascii_of_string_app, filter_app, length_app.
  cbn [list_ascii_of_string filter]. rewrite Nat2Z.inj_succ, Nat2Z.inj_add.
  destruct (is_wide c); cbn [List.length]; lia.
Qed.

(** The skipped method of 10001 code units: the if-then-else skeleton is still
    in the graph, and the counter stands at one. *)
Lemma BuildGraph_skip_keeps_the_skeleton_witness :
  fst (SkipCompilation accepting_stages (method_of_size 10001 false)
         (state_of_heap
            (snd (block_builder_Build accepting_stages (method_of_size 10001 false)
                    (after_setters accepting_stages (method_of_size 10001 false)
                       (heap_ (initial_state accepting_stages (method_of_size 10001 false)
                                 empty_graph some_stats))))))) = true /\
  blocks_ (graph_ (heap_ (snd (BuildGraph accepting_stages (method_of_size 10001 false)
                                 (initial_state accepting_stages
                                    (method_of_size 10001 false)
                                    empty_graph some_stats))))) = diamond /\
  counted (compilation_stats_
             (heap_ (snd (BuildGraph accepting_stages (method_of_size 10001 false)
                            (initial_state accepting_stages (method_of_size 10001 false)
                               empty_graph some_stats)))))
          kNotCompiledHugeMethod = 1%nat.
Proof.
  split; [reflexivity|].
  destruct (BuildGraph_skip_keeps_the_skeleton accepting_stages
              (method_of_size 10001 false) empty_graph some_stats
              (snd (block_builder_Build accepting_stages (method_of_size 10001 false)
                      (after_setters accepting_stages (method_of_size 10001 false)
                         (heap_ (initial_state accepting_stages
                                   (method_of_size 10001 false)
                                   empty_graph some_stats)))))
              eq_refl eq_refl) as (_ & Hgraph & _ & Hstats).
  split.
  - rewrite Hgraph. reflexivity.
  - rewrite Hstats. reflexivity.
Defined.

(** The static intrinsic of signature (JIL)D: four incoming vregs for three
    arguments, strictly between the two bounds. *)
Lemma BuildIntrinsicGraph_in_vregs_bounds_witness :
  GetShorty (dex_compilation_unit_ (intrinsic_method "DJIL" true)) = String "D" "JIL" /\
  Z.of_nat (String.length "JIL") <= 32766 /\
  exists vregs in_vregs stages,
    calls_ (snd (BuildIntrinsicGraph rejecting_stages (intrinsic_method "DJIL" true)
                   (ArtMethodHandle 1)
                   (initial_state rejecting_stages (intrinsic_method "DJIL" true)
                      empty_graph None))) =
      CallSetNumberOfVRegs vregs :: CallSetNumberOfInVRegs in_vregs :: stages /\
    vregs = in_vregs + 2 /\
    3 <= in_vregs <= 6.
Proof.
  assert (Hlen : Z.of_nat (String.length "JIL") <= 32766) by (vm_compute; discriminate).
  split; [reflexivity|]. split; [exact Hlen|].
  destruct (BuildIntrinsicGraph_in_vregs_bounds rejecting_stages
              (intrinsic_method "DJIL" true) (ArtMethodHandle 1) empty_graph None
              "D" "JIL" eq_refl Hlen)
    as (vregs & in_vregs & stages & Hcalls & Hvregs & Hbounds & _).
  exists vregs, in_vregs, stages. repeat split; try assumption; apply Hbounds.
Defined.

(** From (JI)D to (JIL)V: one more narrow argument, one more incoming vreg. *)
Lemma num_arg_vregs_one_more_argument_witness :
  GetShorty (dex_compilation_unit_ (intrinsic_method "DJI" true)) = String "D" "JI" /\
  GetShorty (dex_compilation_unit_ (intrinsic_method "VJIL" true)) =
    String "V" ("JI" ++ String "L" EmptyString) /\
  num_arg_vregs (intrinsic_method "VJIL" true) =
    num_arg_vregs (intrinsic_method "DJI" true) + 1.
Proof.
  split; [reflexivity|]. split; [reflexivity|].
  apply (num_arg_vregs_one_more_argument (intrinsic_method "DJI" true)
           (intrinsic_method "VJIL" true) "D" "V" "JI" "L" eq_refl eq_refl eq_refl eq_refl).
Defined.
